(** * HorarioESP: the reservation conflict and recurrence logic of [src/App.jsx]

    A shallow embedding of the domain logic of the room-booking
    client: the availability query ([ConsultaDisponibilidadView.handleBuscar]),
    the card-view room status ([SalonesView.getSalonStatus]), the timeline
    placement ([CalendarioView.calculateReservaPosition]) and the booking form
    ([ReservaForm.handleSubmit], [crearReservaSimple],
    [crearReservasRecurrentes]); with them, the day navigation, labels and
    rows of the calendar ([CalendarioView]) and the loading of the two
    snapshots ([SalonBookingApp]).  The program comes first, then the words
    the statements need and the inputs of the scenarios, then the
    properties.

    Conventions of the embedding.
    - A JavaScript [Date] is its time value: an integer number of milliseconds
      since the epoch ([Z]).  The dates handled here come from [required]
      date inputs and from timestamp columns, so they are valid dates; the
      one field that can be empty ([fechaFinRecurrencia]) is an [option].
      [toISOString] followed by [new Date] is the identity on time values, so
      the timestamp columns [fecha_inicio], [fecha_fin] hold time values.
    - [getDate], [setDate], [getHours], [getMinutes] work on the browser's
      local calendar.  The time zone is a parameter of the embedding
      ([Zona], the LocalTZA operation of ECMA-262).
    - A JavaScript number that is not an integer count is an IEEE-754 binary64
      ([float]), which is what the timeline arithmetic uses.
    - The hosted backend is an explicit state ([Supabase.t]): the table of
      reservations, the log of requests received, and an oracle telling which
      requests are answered with an error. *)

From Stdlib Require Import ZArith List Bool Lia String DecimalString Sorted.
From Stdlib Require Import Floats.PrimFloat Numbers.Cyclic.Int63.Uint63.
Import ListNotations.
Open Scope Z_scope.

(* ------------------------------------------------------------------------ *)
(** ** Time values and the local calendar (ECMA-262, 21.4.1) *)

Module Fecha.

Definition msPerMinute : Z := 60000.
Definition msPerHour : Z := 3600000.
Definition msPerDay : Z := 86400000.

Definition Day (t : Z) : Z := t / msPerDay.
Definition TimeWithinDay (t : Z) : Z := t mod msPerDay.

Definition DayFromYear (y : Z) : Z :=
  365 * (y - 1970) + (y - 1969) / 4 - (y - 1901) / 100 + (y - 1601) / 400.

Definition EsBisiesto (y : Z) : bool :=
  if negb (y mod 4 =? 0) then false
  else if negb (y mod 100 =? 0) then true
  else y mod 400 =? 0.

(** The largest [y] with [DayFromYear y <= Day t]: an estimate from the mean
    length of the Gregorian year, corrected by at most one year. *)
Definition YearFromTime (t : Z) : Z :=
  let d := Day t in
  let y := 1970 + (d * 400) / 146097 in
  if d <? DayFromYear y then y - 1
  else if DayFromYear (y + 1) <=? d then y + 1
  else y.

Definition InLeapYear (t : Z) : Z :=
  if EsBisiesto (YearFromTime t) then 1 else 0.

Definition DayWithinYear (t : Z) : Z := Day t - DayFromYear (YearFromTime t).

Definition MonthFromTime (t : Z) : Z :=
  let d := DayWithinYear t in
  let l := InLeapYear t in
  if d <? 31 then 0
  else if d <? 59 + l then 1
  else if d <? 90 + l then 2
  else if d <? 120 + l then 3
  else if d <? 151 + l then 4
  else if d <? 181 + l then 5
  else if d <? 212 + l then 6
  else if d <? 243 + l then 7
  else if d <? 273 + l then 8
  else if d <? 304 + l then 9
  else if d <? 334 + l then 10
  else 11.

(** Number of days of the year that precede month [m] (0 = January). *)
Definition DiasAntesDelMes (m l : Z) : Z :=
  if m =? 0 then 0
  else if m =? 1 then 31
  else if m =? 2 then 59 + l
  else if m =? 3 then 90 + l
  else if m =? 4 then 120 + l
  else if m =? 5 then 151 + l
  else if m =? 6 then 181 + l
  else if m =? 7 then 212 + l
  else if m =? 8 then 243 + l
  else if m =? 9 then 273 + l
  else if m =? 10 then 304 + l
  else 334 + l.

Definition DateFromTime (t : Z) : Z :=
  DayWithinYear t - DiasAntesDelMes (MonthFromTime t) (InLeapYear t) + 1.

Definition WeekDay (t : Z) : Z := (Day t + 4) mod 7.
Definition HourFromTime (t : Z) : Z := (t / msPerHour) mod 24.
Definition MinFromTime (t : Z) : Z := (t / msPerMinute) mod 60.

Definition MakeDay (year month date : Z) : Z :=
  let ym := year + month / 12 in
  let mn := month mod 12 in
  DayFromYear ym + DiasAntesDelMes mn (if EsBisiesto ym then 1 else 0)
    + date - 1.

Definition MakeDate (day time : Z) : Z := day * msPerDay + time.

(** [LocalTZA t isUTC]: the offset of local time from UTC, in milliseconds.
    With [isUTC = true], [t] is a UTC time value; with [isUTC = false], [t]
    is a local time value, and a local time that is skipped or repeated by a
    clock change is read with the offset in force before the change. *)
Definition Zona : Type := Z -> bool -> Z.

Definition LocalTime (tz : Zona) (t : Z) : Z := t + tz t true.
Definition UTC (tz : Zona) (t : Z) : Z := t - tz t false.

(** A zone whose offset never changes (no daylight saving time). *)
Definition zonaFija (desfase : Z) : Zona := fun _ _ => desfase.

(** A zone with one forward clock change at the UTC instant [cambio]:
    offset [antes] before it and [despues] from it on ([antes < despues]).
    The local times in [cambio + antes, cambio + despues) are skipped. *)
Definition zonaConCambio (cambio antes despues : Z) : Zona :=
  fun t isUTC =>
    if isUTC then (if t <? cambio then antes else despues)
    else (if t <? cambio + despues then antes else despues).

Definition getDate (tz : Zona) (t : Z) : Z := DateFromTime (LocalTime tz t).
Definition getHours (tz : Zona) (t : Z) : Z := HourFromTime (LocalTime tz t).
Definition getMinutes (tz : Zona) (t : Z) : Z := MinFromTime (LocalTime tz t).

(** [d.setDate(dt)]: the time value of [d] afterwards.  (TimeClip is left
    out: the dates of a booking are far from the ends of the range.) *)
Definition setDate (tz : Zona) (t dt : Z) : Z :=
  let l := LocalTime tz t in
  UTC tz (MakeDate (MakeDay (YearFromTime l) (MonthFromTime l) dt)
                   (TimeWithinDay l)).

(** What [toLocaleDateString('es-ES', {weekday, day, month})] renders:
    the day of the week, the day of the month and the month of the local
    date (the Spanish wording is left out). *)
Record FechaCorta : Type := {
  weekday : Z;
  day : Z;
  month : Z
}.

Definition toLocaleDateString (tz : Zona) (t : Z) : FechaCorta :=
  let l := LocalTime tz t in
  {| weekday := WeekDay l; day := DateFromTime l; month := MonthFromTime l |}.

(** The time value of [new Date(`${fecha}T${hora}`)], the local date
    [fecha] being given by its day number and [hora] (HH:MM) by its minutes
    since midnight. *)
Definition deFechaHora (tz : Zona) (fecha hora : Z) : Z :=
  UTC tz (MakeDate fecha (hora * msPerMinute)).

Definition MakeTime (hour min sec ms : Z) : Z :=
  hour * msPerHour + min * msPerMinute + sec * 1000 + ms.

(** [d.setHours(hour, min, sec, ms)]: the time value of [d] afterwards. *)
Definition setHours (tz : Zona) (t hour min sec ms : Z) : Z :=
  let l := LocalTime tz t in
  UTC tz (MakeDate (Day l) (MakeTime hour min sec ms)).

(** What [toLocaleDateString('es-ES', {weekday, year, month, day})] renders
    (the Spanish wording is left out). *)
Record FechaLarga : Type := {
  diaSemana : Z;
  anio : Z;
  mes : Z;
  dia : Z
}.

Definition toLocaleDateStringLargo (tz : Zona) (t : Z) : FechaLarga :=
  let l := LocalTime tz t in
  {| diaSemana := WeekDay l; anio := YearFromTime l;
     mes := MonthFromTime l; dia := DateFromTime l |}.

End Fecha.

(* ------------------------------------------------------------------------ *)
(** ** Data model: rooms and reservations as the client holds them *)

Module Salon.
Record t : Type := {
  id : Z;
  nombre : string;
  capacidad : Z
}.
End Salon.

Module Reserva.
(** A row of the table [reservas]. *)
Record t : Type := {
  id : Z;
  salon_id : Z;
  user_id : Z;
  fecha_inicio : Z;
  fecha_fin : Z;
  proposito : string
}.
End Reserva.

Module NuevaReserva.
(** The object the booking form sends to [insert]: a row without [id]. *)
Record t : Type := {
  salon_id : Z;
  user_id : Z;
  fecha_inicio : Z;
  fecha_fin : Z;
  proposito : string
}.
End NuevaReserva.

(* ------------------------------------------------------------------------ *)
(** ** ConsultaDisponibilidadView: the availability query *)

Record Resultado : Type := {
  salon : Salon.t;
  disponible : bool;
  conflicto : option Reserva.t
}.

(** The callback given to [reservas.find]: same room and overlapping
    interval. *)
Definition solapa (salon : Salon.t) (inicio fin : Z) (r : Reserva.t) : bool :=
  if negb (Reserva.salon_id r =? Salon.id salon) then false
  else
    let reservaInicio := Reserva.fecha_inicio r in
    let reservaFin := Reserva.fecha_fin r in
    (inicio <? reservaFin) && (fin >? reservaInicio).

(** [salones.filter(s => s.capacidad >= parseInt(capacidadMinima))], applied
    only when the field is not empty ([None] is the empty field). *)
Definition filtrarPorCapacidad (salones : list Salon.t)
    (capacidadMinima : option Z) : list Salon.t :=
  match capacidadMinima with
  | Some minimo => filter (fun s => Salon.capacidad s >=? minimo) salones
  | None => salones
  end.

(** [salonesDisponibles.map(salon => ...)]: one verdict per candidate room. *)
Definition verificarDisponibilidad (reservas : list Reserva.t)
    (inicio fin : Z) (salonesDisponibles : list Salon.t) : list Resultado :=
  map (fun salon =>
         let conflicto := find (solapa salon inicio fin) reservas in
         {| salon := salon;
            disponible :=
              match conflicto with Some _ => false | None => true end;
            conflicto := conflicto |})
      salonesDisponibles.

(** [handleBuscar]: the new value of [resultados], or [None] when the handler
    returns early with an alert.  [fecha] is the day number of the date
    field, [horaInicio] and [horaFin] the minutes since midnight of the two
    HH:MM fields (on which the order of strings is the order of times);
    [None] is an empty field. *)
Definition handleBuscar (tz : Fecha.Zona) (salones : list Salon.t)
    (reservas : list Reserva.t) (fecha horaInicio horaFin : option Z)
    (capacidadMinima : option Z) : option (list Resultado) :=
  match fecha, horaInicio, horaFin with
  | Some fecha, Some horaInicio, Some horaFin =>
      if horaFin <=? horaInicio then None
      else
        let inicio := Fecha.deFechaHora tz fecha horaInicio in
        let fin := Fecha.deFechaHora tz fecha horaFin in
        Some (verificarDisponibilidad reservas inicio fin
                (filtrarPorCapacidad salones capacidadMinima))
  | _, _, _ => None
  end.

(* ------------------------------------------------------------------------ *)
(** ** SalonesView: the status shown on a room card *)

Inductive Estado : Type := ocupado | disponibleAhora.

(** [getSalonStatus]; [now] is the value of [new Date()] at the call. *)
Definition getSalonStatus (reservas : list Reserva.t) (now : Z)
    (salonId : Z) : Estado :=
  let reservasActivas :=
    filter (fun r => (Reserva.salon_id r =? salonId)
                     && (Reserva.fecha_inicio r <=? now)
                     && (Reserva.fecha_fin r >=? now)) reservas in
  if Z.of_nat (List.length reservasActivas) >? 0 then ocupado
  else disponibleAhora.

(* ------------------------------------------------------------------------ *)
(** ** CalendarioView: vertical placement on the 06:00-22:00 timeline *)

Module Numero.
(** JavaScript numbers. *)
Definition deEntero (z : Z) : float := PrimFloat.of_uint63 (Uint63.of_Z z).

(** [Math.max] and [Math.min] on two arguments: NaN if either is NaN, and
    the positive zero counts as larger than the negative zero. *)
Definition max (a b : float) : float :=
  if PrimFloat.is_nan a || PrimFloat.is_nan b then PrimFloat.nan
  else if PrimFloat.ltb a b then b
  else if PrimFloat.ltb b a then a
  else if PrimFloat.get_sign a then b else a.

Definition min (a b : float) : float :=
  if PrimFloat.is_nan a || PrimFloat.is_nan b then PrimFloat.nan
  else if PrimFloat.ltb a b then a
  else if PrimFloat.ltb b a then b
  else if PrimFloat.get_sign a then a else b.
End Numero.

Record Posicion : Type := {
  top : float;
  height : float
}.

(** The decimal hour [d.getHours() + d.getMinutes() / 60]. *)
Definition horaDecimal (tz : Fecha.Zona) (t : Z) : float :=
  PrimFloat.add (Numero.deEntero (Fecha.getHours tz t))
    (PrimFloat.div (Numero.deEntero (Fecha.getMinutes tz t))
                   (Numero.deEntero 60)).

Definition calculateReservaPosition (tz : Fecha.Zona) (reserva : Reserva.t)
    : Posicion :=
  let start_ := Reserva.fecha_inicio reserva in
  let end_ := Reserva.fecha_fin reserva in
  let startHour := horaDecimal tz start_ in
  let endHour := horaDecimal tz end_ in
  let displayStartHour := Numero.max startHour (Numero.deEntero 6) in
  let displayEndHour := Numero.min endHour (Numero.deEntero 22) in
  let top := PrimFloat.mul (PrimFloat.sub displayStartHour (Numero.deEntero 6))
                           (Numero.deEntero 60) in
  let height := PrimFloat.mul (PrimFloat.sub displayEndHour displayStartHour)
                              (Numero.deEntero 60) in
  {| top := top; height := height |}.

(* ------------------------------------------------------------------------ *)
(** ** The hosted backend, as far as the booking form uses it *)

Module Supabase.

Record Error : Type := { message : string }.

(** The requests the booking form sends. *)
Inductive Llamada : Type :=
| Select (salon_id lte_fecha_inicio gte_fecha_fin : Z)
| Insert (filas : list NuevaReserva.t).

(** [tabla]: the committed rows of [reservas]; [registro]: the requests
    received so far, oldest first; [falla k]: whether the request number [k]
    (from 0) is answered with an error instead of being served. *)
Record t : Type := {
  tabla : list Reserva.t;
  registro : list Llamada;
  falla : nat -> bool
}.

(** The [{ data, error }] object a request resolves to. *)
Record Respuesta (A : Type) : Type := {
  data : option A;
  error : option Error
}.
Arguments data {A} _.
Arguments error {A} _.

Definition noDisponible : Error := {| message := "service unavailable" |}.

Definition turno (db : t) : nat := List.length (registro db).

Definition anotar (c : Llamada) (tabla' : list Reserva.t) (db : t) : t :=
  {| tabla := tabla'; registro := registro db ++ [c]; falla := falla db |}.

(** The row filter of
    [.eq('salon_id', s)
     .or(`and(fecha_inicio.lte.${fin},fecha_fin.gte.${inicio})`)]. *)
Definition filtro (s lte_fecha_inicio gte_fecha_fin : Z) (r : Reserva.t)
    : bool :=
  (Reserva.salon_id r =? s)
  && (Reserva.fecha_inicio r <=? lte_fecha_inicio)
  && (Reserva.fecha_fin r >=? gte_fecha_fin).

Definition select (s lte_fecha_inicio gte_fecha_fin : Z) (db : t)
    : Respuesta (list Reserva.t) * t :=
  let db' := anotar (Select s lte_fecha_inicio gte_fecha_fin) (tabla db) db in
  if falla db (turno db)
  then ({| data := None; error := Some noDisponible |}, db')
  else ({| data := Some (filter (filtro s lte_fecha_inicio gte_fecha_fin)
                                (tabla db));
           error := None |}, db').

(** The rows as stored: the backend gives each a fresh [id]. *)
Fixpoint almacenar (siguiente : Z) (filas : list NuevaReserva.t)
    : list Reserva.t :=
  match filas with
  | [] => []
  | f :: filas' =>
      {| Reserva.id := siguiente;
         Reserva.salon_id := NuevaReserva.salon_id f;
         Reserva.user_id := NuevaReserva.user_id f;
         Reserva.fecha_inicio := NuevaReserva.fecha_inicio f;
         Reserva.fecha_fin := NuevaReserva.fecha_fin f;
         Reserva.proposito := NuevaReserva.proposito f |}
      :: almacenar (siguiente + 1) filas'
  end.

Definition siguienteId (tabla : list Reserva.t) : Z :=
  1 + fold_right (fun r m => Z.max (Reserva.id r) m) 0 tabla.

Definition insert (filas : list NuevaReserva.t) (db : t)
    : Respuesta unit * t :=
  if falla db (turno db)
  then ({| data := None; error := Some noDisponible |},
        anotar (Insert filas) (tabla db) db)
  else ({| data := None; error := None |},
        anotar (Insert filas)
               (tabla db ++ almacenar (siguienteId (tabla db)) filas) db).

End Supabase.

(* ------------------------------------------------------------------------ *)
(** ** ReservaForm: the booking form *)

Record Conflicto : Type := {
  semana : Z;
  fecha : Fecha.FechaCorta
}.

(** What the handlers throw. *)
Inductive Excepcion : Type :=
| ErrorValidacion (message : string)
| ErrorConflictos (conflictos : list Conflicto)
| ErrorSupabase (e : Supabase.Error).

(** An [async] function over the backend: it ends by returning or by
    throwing, and what it sent to the backend stays sent either way. *)
Definition Prog (A : Type) : Type :=
  Supabase.t -> (Excepcion + A) * Supabase.t.

Definition ret {A : Type} (a : A) : Prog A := fun db => (inr a, db).

Definition throw {A : Type} (e : Excepcion) : Prog A := fun db => (inl e, db).

Definition bind {A B : Type} (c : Prog A) (k : A -> Prog B) : Prog B :=
  fun db =>
    match c db with
    | (inl e, db') => (inl e, db')
    | (inr a, db') => k a db'
    end.

(** [await] of a backend request. *)
Definition await {A : Type}
    (q : Supabase.t -> Supabase.Respuesta A * Supabase.t)
    : Prog (Supabase.Respuesta A) :=
  fun db => let (r, db') := q db in (inr r, db').

Declare Scope prog_scope.
Delimit Scope prog_scope with prog.
Notation "x <- c ;; k" := (bind c (fun x => k))
  (at level 61, c at next level, right associativity) : prog_scope.

Inductive TipoRecurrencia : Type := weeks | date.

(** The state of the form when it is submitted.  [fechaInicio] and
    [fechaFin] are the time values of [new Date(fechaInicio)] and
    [new Date(fechaFin)]; [numSemanas] is [parseInt(numSemanas)];
    [fechaFinRecurrencia] is the time value of
    [new Date(fechaFinRecurrencia)], [None] when the field is empty (an
    invalid date). *)
Record Formulario : Type := {
  fechaInicio : Z;
  fechaFin : Z;
  proposito : string;
  esRecurrente : bool;
  tipoRecurrencia : TipoRecurrencia;
  numSemanas : Z;
  fechaFinRecurrencia : option Z
}.

(** What the user sees once the handler has settled: the inline error
    ([setError]), the spinner ([setLoading]), the number announced by the
    [alert] of the recurring path, and whether [onSuccess] was called. *)
Record Vista : Type := {
  error : option Excepcion;
  loading : bool;
  alerta : option Z;
  onSuccess : bool
}.

Definition decimal (n : Z) : string :=
  DecimalString.NilZero.string_of_int (Z.to_int n).

Section ReservaForm.

Variable tz : Fecha.Zona.
Variable salon_ : Salon.t.
Variable user_id_ : Z.
Variable form : Formulario.

Definition nuevaReserva (inicio fin : Z) (proposito_ : string)
    : NuevaReserva.t :=
  {| NuevaReserva.salon_id := Salon.id salon_;
     NuevaReserva.user_id := user_id_;
     NuevaReserva.fecha_inicio := inicio;
     NuevaReserva.fecha_fin := fin;
     NuevaReserva.proposito := proposito_ |}.

Definition crearReservaSimple (inicio fin : Z) : Prog Vista :=
  (r <- await (Supabase.insert
                 [nuevaReserva inicio fin (proposito form)]) ;;
   match Supabase.error r with
   | Some insertError => throw (ErrorSupabase insertError)
   | None =>
       ret {| error := None; loading := false; alerta := None;
              onSuccess := true |}
   end)%prog.

(** [numReservas] and [fechaLimite].  [numReservas] is [None] when it is
    NaN (empty stop date), in which case the loop test [i < numReservas]
    fails at once. *)
Definition numReservas : option Z :=
  match tipoRecurrencia form with
  | weeks => Some (numSemanas form)
  | date =>
      match fechaFinRecurrencia form with
      | None => None
      | Some limiteDate =>
          let diffTime := Z.abs (limiteDate - fechaInicio form) in
          (* Math.ceil(diffTime / (1000 * 60 * 60 * 24)) *)
          let diffDays := - ((- diffTime) / (1000 * 60 * 60 * 24)) in
          Some (diffDays / 7 + 1)
      end
  end.

Definition fechaLimite : option Z :=
  match tipoRecurrencia form with
  | weeks => None
  | date => fechaFinRecurrencia form
  end.

Definition vueltas : nat :=
  match numReservas with
  | Some n => Z.to_nat n
  | None => O
  end.

(** [fechaLimite && inicio > fechaLimite] *)
Definition pasaLimite (inicio : Z) : bool :=
  match fechaLimite with
  | Some limite => inicio >? limite
  | None => false
  end.

(** [existentes && existentes.length > 0] *)
Definition hayExistentes (existentes : option (list Reserva.t)) : bool :=
  match existentes with
  | Some l => Z.of_nat (List.length l) >? 0
  | None => false
  end.

(** The date of week [i] of the series, as the loop computes it:
    [d = new Date(base); d.setDate(d.getDate() + (i * 7))]. *)
Definition desplazar (base i : Z) : Z :=
  Fecha.setDate tz base (Fecha.getDate tz base + i * 7).

(** The [for] loop over [i], with [restantes] turns left to run. *)
Fixpoint bucle (inicioBase finBase : Z) (restantes : nat) (i : Z)
    (reservas : list NuevaReserva.t) (conflictos : list Conflicto)
    : Prog (list NuevaReserva.t * list Conflicto) :=
  match restantes with
  | O => ret (reservas, conflictos)
  | S restantes' =>
      let inicio := desplazar inicioBase i in
      let fin := desplazar finBase i in
      if pasaLimite inicio then ret (reservas, conflictos)
      else
        (r <- await (Supabase.select (Salon.id salon_) fin inicio) ;;
         let existentes := Supabase.data r in
         if hayExistentes existentes
         then bucle inicioBase finBase restantes' (i + 1) reservas
                (conflictos
                   ++ [{| semana := i + 1;
                          fecha := Fecha.toLocaleDateString tz inicio |}])
         else bucle inicioBase finBase restantes' (i + 1)
                (reservas
                   ++ [nuevaReserva inicio fin
                         (proposito form ++ " (Semana " ++ decimal (i + 1)
                            ++ ")")])
                conflictos)%prog
  end.

Definition crearReservasRecurrentes (inicioBase finBase : Z) : Prog Vista :=
  (rc <- bucle inicioBase finBase vueltas 0 [] [] ;;
   let (reservas, conflictos) := rc in
   if Z.of_nat (List.length conflictos) >? 0
   then throw (ErrorConflictos conflictos)
   else
     r <- await (Supabase.insert reservas) ;;
     match Supabase.error r with
     | Some insertError => throw (ErrorSupabase insertError)
     | None =>
         ret {| error := None; loading := false;
                alerta := Some (Z.of_nat (List.length reservas));
                onSuccess := true |}
     end)%prog.

Definition handleSubmit (db : Supabase.t) : Vista * Supabase.t :=
  let intento : Prog Vista :=
    let inicio := fechaInicio form in
    let fin := fechaFin form in
    if fin <=? inicio
    then throw (ErrorValidacion
                  "La fecha de fin debe ser posterior a la fecha de inicio")
    else if esRecurrente form
    then crearReservasRecurrentes inicio fin
    else crearReservaSimple inicio fin in
  match intento db with
  | (inr vista, db') => (vista, db')
  | (inl err, db') =>
      ({| error := Some err; loading := false; alerta := None;
          onSuccess := false |}, db')
  end.

End ReservaForm.

(* ------------------------------------------------------------------------ *)
(** ** CalendarioView: the day shown, its labels and its blocks *)

(** [Array.from({ length: 17 }, (_, i) => i + 6)] *)
Definition hours : list Z := map (fun i => Z.of_nat i + 6) (seq 0 17).

Definition formatHour (hour : Z) : string :=
  let period := (if hour >=? 12 then "PM" else "AM")%string in
  let displayHour :=
    if hour >? 12 then hour - 12 else if hour =? 0 then 12 else hour in
  (decimal displayHour ++ ":00 " ++ period)%string.

Definition getReservasForSalonOnDate (tz : Fecha.Zona)
    (reservas : list Reserva.t) (salonId date : Z) : list Reserva.t :=
  let startOfDay := Fecha.setHours tz date 0 0 0 0 in
  let endOfDay := Fecha.setHours tz date 23 59 59 999 in
  filter (fun r =>
            if negb (Reserva.salon_id r =? salonId) then false
            else
              let reservaStart := Reserva.fecha_inicio r in
              let reservaEnd := Reserva.fecha_fin r in
              (reservaStart <=? endOfDay) && (reservaEnd >=? startOfDay))
         reservas.

(** [changeDate]: the new value of [selectedDate]. *)
Definition changeDate (tz : Fecha.Zona) (selectedDate days : Z) : Z :=
  Fecha.setDate tz selectedDate (Fecha.getDate tz selectedDate + days).

(** [formatDateDisplay]; [now] is the value of [new Date()] at the call.
    The boolean tells whether the text starts with ['Hoy, ']. *)
Definition formatDateDisplay (tz : Fecha.Zona) (now date : Z)
    : bool * Fecha.FechaLarga :=
  let today := Fecha.setHours tz now 0 0 0 0 in
  let compareDate := Fecha.setHours tz date 0 0 0 0 in
  if compareDate =? today
  then (true, Fecha.toLocaleDateStringLargo tz date)
  else (false, Fecha.toLocaleDateStringLargo tz date).

Module Conjunto.
(** A JavaScript [Set] of room ids: its elements in insertion order, each
    once. *)
Definition has (s : list Z) (x : Z) : bool := existsb (Z.eqb x) s.
Definition delete (s : list Z) (x : Z) : list Z :=
  filter (fun y => negb (y =? x)) s.
Definition add (s : list Z) (x : Z) : list Z :=
  if has s x then s else s ++ [x].
End Conjunto.

(** [toggleCollapse]: the new value of [collapsedSalones]. *)
Definition toggleCollapse (collapsedSalones : list Z) (salonId : Z)
    : list Z :=
  let newCollapsed := collapsedSalones in
  if Conjunto.has newCollapsed salonId
  then Conjunto.delete newCollapsed salonId
  else Conjunto.add newCollapsed salonId.

(** The blocks drawn in the row of a room: none when the row is collapsed,
    else one per reservation of the day, with its placement. *)
Definition bloquesDelSalon (tz : Fecha.Zona) (reservas : list Reserva.t)
    (collapsedSalones : list Z) (selectedDate : Z) (salon_ : Salon.t)
    : option (list (Reserva.t * Posicion)) :=
  let salonReservas :=
    getReservasForSalonOnDate tz reservas (Salon.id salon_) selectedDate in
  let isCollapsed := Conjunto.has collapsedSalones (Salon.id salon_) in
  if isCollapsed then None
  else Some (map (fun reserva => (reserva, calculateReservaPosition tz reserva))
                 salonReservas).

(* ------------------------------------------------------------------------ *)
(** ** SalonBookingApp: loading the two snapshots *)

(** How an awaited request ends: it resolves to a [{ data, error }] object,
    or it rejects (the five-second timeout of [Promise.race], or a thrown
    error). *)
Inductive Promesa (A : Type) : Type :=
| Cumplida (r : Supabase.Respuesta A)
| Rechazada (message : string).
Arguments Cumplida {A} _.
Arguments Rechazada {A} _.

Module App.
(** The state of the top component that the views read. *)
Record t : Type := {
  user : option Z;
  salones : list Salon.t;
  reservas : list Reserva.t
}.

Definition setSalones (l : list Salon.t) (e : t) : t :=
  {| user := user e; salones := l; reservas := reservas e |}.

Definition setReservas (l : list Reserva.t) (e : t) : t :=
  {| user := user e; salones := salones e; reservas := l |}.

(** The state at mount: nobody signed in, nothing loaded. *)
Definition inicial : t := {| user := None; salones := []; reservas := [] |}.
End App.

(** [data || []] *)
Definition oVacia {A : Type} (data : option (list A)) : list A :=
  match data with
  | Some l => l
  | None => []
  end.

(** [loadSalones]; [carrera] is how the query raced against the timeout
    ends. *)
Definition loadSalones (isMounted : bool)
    (carrera : Promesa (list Salon.t)) (e : App.t) : App.t :=
  match carrera with
  | Cumplida r =>
      match Supabase.error r with
      | Some _ => if isMounted then App.setSalones [] e else e
      | None =>
          if isMounted then App.setSalones (oVacia (Supabase.data r)) e
          else e
      end
  | Rechazada _ => if isMounted then App.setSalones [] e else e
  end.

(** [loadReservas]; [carrera] is how the joined query raced against the
    timeout ends, [simple] how the query without the join of profiles ends,
    which is only sent when the first one resolves with an error. *)
Definition loadReservas (isMounted : bool)
    (carrera simple : Promesa (list Reserva.t)) (e : App.t) : App.t :=
  match carrera with
  | Cumplida r =>
      match Supabase.error r with
      | Some _ =>
          match simple with
          | Cumplida rs =>
              match Supabase.error rs with
              | Some _ => if isMounted then App.setReservas [] e else e
              | None =>
                  if isMounted
                  then App.setReservas (oVacia (Supabase.data rs)) e
                  else e
              end
          | Rechazada _ => if isMounted then App.setReservas [] e else e
          end
      | None =>
          if isMounted then App.setReservas (oVacia (Supabase.data r)) e
          else e
      end
  | Rechazada _ => if isMounted then App.setReservas [] e else e
  end.

(** The effect that runs at mount and whenever [user] changes: rooms are
    always loaded, reservations only for a signed-in user. *)
Definition efectoCarga (cSalones : Promesa (list Salon.t))
    (cReservas cSimple : Promesa (list Reserva.t)) (e : App.t) : App.t :=
  let isMounted := true in
  let e1 := loadSalones isMounted cSalones e in
  match App.user e1 with
  | Some _ => loadReservas isMounted cReservas cSimple e1
  | None => e1
  end.

(* ------------------------------------------------------------------------ *)
(** ** Vocabulary of the statements *)

(** The half-open overlap of a window [a, b) with a reservation [c, d) of the
    room [s], and the closed variant. *)
Definition solapaSemiabierto (s a b : Z) (r : Reserva.t) : Prop :=
  Reserva.salon_id r = s
  /\ a < Reserva.fecha_fin r /\ b > Reserva.fecha_inicio r.

Definition solapaCerrado (s a b : Z) (r : Reserva.t) : Prop :=
  Reserva.salon_id r = s
  /\ Reserva.fecha_inicio r <= b /\ Reserva.fecha_fin r >= a.

(** [r] is the first entry of [l], in order, that satisfies [p]. *)
Definition primero {A : Type} (p : A -> bool) (l : list A) (r : A) : Prop :=
  exists l1 l2, l = l1 ++ r :: l2 /\ p r = true
                /\ forall x, In x l1 -> p x = false.

(** [h] hours and [m] minutes, in milliseconds. *)
Definition minutos (h m : Z) : Z := (h * 60 + m) * Fecha.msPerMinute.

(** Concrete rooms and reservations for the scenarios. *)
Definition sala (id_ capacidad_ : Z) : Salon.t :=
  {| Salon.id := id_; Salon.nombre := "Aula"; Salon.capacidad := capacidad_ |}.

Definition reservaDe (id_ salon_id_ inicio fin : Z) : Reserva.t :=
  {| Reserva.id := id_;
     Reserva.salon_id := salon_id_;
     Reserva.user_id := 7;
     Reserva.fecha_inicio := inicio;
     Reserva.fecha_fin := fin;
     Reserva.proposito := "Clase" |}.

(** Day number of Monday 2024-03-18, and its midnight in UTC. *)
Definition lunes18 : Z := 19800.
Definition medianoche18 : Z := lunes18 * Fecha.msPerDay.

(** The two back-to-back reservations of room 1 on that day, 10:00-11:00 and
    11:00-12:00 (UTC). *)
Definition diezAOnce : Reserva.t :=
  reservaDe 1 1 (medianoche18 + minutos 10 0) (medianoche18 + minutos 11 0).
Definition onceADoce : Reserva.t :=
  reservaDe 2 1 (medianoche18 + minutos 11 0) (medianoche18 + minutos 12 0).

(** The local offset at [base] is also the one with which the local times
    [i] weeks later are read, for [0 <= i < n]: no clock change gets in the
    way of the series. *)
Definition desfaseEstable (tz : Fecha.Zona) (base n : Z) : Prop :=
  forall i, 0 <= i < n ->
    tz (Fecha.LocalTime tz base + i * 7 * Fecha.msPerDay) false = tz base true.

(** The local calendar reads [t] back as [t]: true of every instant but
    those of the hour that is repeated when clocks go back. *)
Definition sinAmbiguedad (tz : Fecha.Zona) (t : Z) : Prop :=
  Fecha.UTC tz (Fecha.LocalTime tz t) = t.

Section Serie.

Variable tz : Fecha.Zona.
Variable salon_ : Salon.t.
Variable user_id_ : Z.
Variable form : Formulario.
Variables inicioBase finBase : Z.

(** Occurrence [i] of the series: the probe sent for it, the row written for
    it, and the notice kept for it when it conflicts. *)
Definition consulta (i : Z) : Supabase.Llamada :=
  Supabase.Select (Salon.id salon_)
                  (desplazar tz finBase i) (desplazar tz inicioBase i).

Definition fila (i : Z) : NuevaReserva.t :=
  nuevaReserva salon_ user_id_
    (desplazar tz inicioBase i) (desplazar tz finBase i)
    (proposito form ++ " (Semana " ++ decimal (i + 1) ++ ")")%string.

Definition aviso (i : Z) : Conflicto :=
  {| semana := i + 1;
     fecha := Fecha.toLocaleDateString tz (desplazar tz inicioBase i) |}.

(** The indices of the occurrences generated by a loop that is at index [i]
    with [restantes] turns left: it stops early at the first occurrence that
    starts after the stop date. *)
Fixpoint generadas (restantes : nat) (i : Z) : list Z :=
  match restantes with
  | O => []
  | S restantes' =>
      if pasaLimite form (desplazar tz inicioBase i) then []
      else i :: generadas restantes' (i + 1)
  end.

(** What the probe of occurrence [j] brings back, for a loop that reached
    index [i] with the backend in state [db]: nothing if the request fails,
    else the rows of the room that pass the filter. *)
Definition existentesDe (db : Supabase.t) (i j : Z)
    : option (list Reserva.t) :=
  if Supabase.falla db (Supabase.turno db + Z.to_nat (j - i)%Z)%nat
  then None
  else Some (filter (Supabase.filtro (Salon.id salon_)
                       (desplazar tz finBase j) (desplazar tz inicioBase j))
                    (Supabase.tabla db)).

(** Occurrence [j] belongs to the conflict set: its probe found a row. *)
Definition conflictiva (db : Supabase.t) (i j : Z) : bool :=
  hayExistentes (existentesDe db i j).

End Serie.

(** The backend after it has received the requests [cs] and stored the
    rows [nuevas]. *)
Definition trasLlamadas (cs : list Supabase.Llamada) (nuevas : list Reserva.t)
    (db : Supabase.t) : Supabase.t :=
  {| Supabase.tabla := Supabase.tabla db ++ nuevas;
     Supabase.registro := Supabase.registro db ++ cs;
     Supabase.falla := Supabase.falla db |}.

(** What the form shows after a failed and after a successful submission. *)
Definition vistaError (e : Excepcion) : Vista :=
  {| error := Some e; loading := false; alerta := None; onSuccess := false |}.

Definition vistaExito (alerta_ : option Z) : Vista :=
  {| error := None; loading := false; alerta := alerta_; onSuccess := true |}.

Definition finNoPosterior : Excepcion :=
  ErrorValidacion "La fecha de fin debe ser posterior a la fecha de inicio".

(** Every stored reservation ends strictly after it starts. *)
Definition finPosterior (tabla : list Reserva.t) : Prop :=
  forall r, In r tabla -> Reserva.fecha_inicio r < Reserva.fecha_fin r.



(** Zones of the scenarios: UTC, and Europe/Madrid around the change to
    summer time of 2024-03-31 01:00 UTC (UTC+1 before, UTC+2 after). *)
Definition utc : Fecha.Zona := Fecha.zonaFija 0.
Definition madrid : Fecha.Zona :=
  Fecha.zonaConCambio 1711846800000 3600000 7200000.

(** Forms of the scenarios. *)
Definition unaVez (inicio fin : Z) : Formulario :=
  {| fechaInicio := inicio; fechaFin := fin; proposito := "Clase";
     esRecurrente := false; tipoRecurrencia := weeks; numSemanas := 16;
     fechaFinRecurrencia := None |}.

Definition semanal (inicio fin n : Z) : Formulario :=
  {| fechaInicio := inicio; fechaFin := fin; proposito := "Clase";
     esRecurrente := true; tipoRecurrencia := weeks; numSemanas := n;
     fechaFinRecurrencia := None |}.

Definition hastaFecha (inicio fin limite : Z) : Formulario :=
  {| fechaInicio := inicio; fechaFin := fin; proposito := "Clase";
     esRecurrente := true; tipoRecurrencia := date; numSemanas := 16;
     fechaFinRecurrencia := Some limite |}.

(** Backends of the scenarios: a table, no request received yet, and either
    every request served or the first one answered with an error. *)
Definition atiende : nat -> bool := fun _ => false.
Definition fallaLaPrimera : nat -> bool := fun k => Nat.eqb k 0.

Definition respaldo (tabla_ : list Reserva.t) (falla_ : nat -> bool)
    : Supabase.t :=
  {| Supabase.tabla := tabla_; Supabase.registro := [];
     Supabase.falla := falla_ |}.

(** Monday 2024-03-11 10:00-11:00 and Sunday 2024-03-17 02:30-03:30, Madrid
    time (UTC+1 on both days). *)
Definition lunes11_10h : Z := 19793 * Fecha.msPerDay + minutos 9 0.
Definition lunes11_11h : Z := 19793 * Fecha.msPerDay + minutos 10 0.

(** The decimal hour of the clock reading [h]:[m], and the arithmetic of
    [calculateReservaPosition] on the two decimal hours. *)
Definition hora (h m : Z) : float :=
  PrimFloat.add (Numero.deEntero h)
                (PrimFloat.div (Numero.deEntero m) (Numero.deEntero 60)).

Definition posicionHoras (startHour endHour : float) : Posicion :=
  let displayStartHour := Numero.max startHour (Numero.deEntero 6) in
  let displayEndHour := Numero.min endHour (Numero.deEntero 22) in
  {| top := PrimFloat.mul
              (PrimFloat.sub displayStartHour (Numero.deEntero 6))
              (Numero.deEntero 60);
     height := PrimFloat.mul
                 (PrimFloat.sub displayEndHour displayStartHour)
                 (Numero.deEntero 60) |}.

(** The integer [z] as a number, and the test that the number [x] is within
    2^-40 of it. *)
Definition conSigno (z : Z) : float :=
  if z <? 0 then PrimFloat.opp (Numero.deEntero (- z)) else Numero.deEntero z.

Definition cerca (x : float) (z : Z) : bool :=
  PrimFloat.leb (PrimFloat.abs (PrimFloat.sub x (conSigno z))) 0x1p-40%float.

(** The exact placement, in pixels, of a reservation that starts [sm] and
    ends [em] minutes after local midnight: one pixel per minute, clipped to
    06:00-22:00. *)
Definition topExacto (sm : Z) : Z := Z.max sm 360 - 360.
Definition heightExacto (sm em : Z) : Z := Z.min em 1320 - Z.max sm 360.

Definition cercaPosicion (p : Posicion) (sm em : Z) : bool :=
  cerca (top p) (topExacto sm) && cerca (height p) (heightExacto sm em).

(** Every clock reading of a day with its decimal hour, and the check of the
    placement over every pair of readings. *)
Definition rango (n : nat) : list Z := map Z.of_nat (seq 0 n).

Definition relojes : list (Z * float) :=
  flat_map (fun h => map (fun m => (60 * h + m, hora h m)) (rango 60))
           (rango 24).

Definition cercaEntre (s e : Z * float) : bool :=
  cercaPosicion (posicionHoras (snd s) (snd e)) (fst s) (fst e).


(** The snapshot as the backend orders it: by start, ascending. *)
Definition porInicio (reservas : list Reserva.t) : Prop :=
  StronglySorted
    (fun r1 r2 => Reserva.fecha_inicio r1 <= Reserva.fecha_inicio r2) reservas.

(** The reservations of the room [s]. *)
Definition delSalon (s : Z) (reservas : list Reserva.t) : list Reserva.t :=
  filter (fun r => Reserva.salon_id r =? s) reservas.

(** Three rooms of 10, 20 and 30 seats, and a third reservation, of room 2,
    on Monday 2024-03-18 from 10:15 to 10:45 (UTC). *)
Definition tresSalas : list Salon.t := [sala 1 10; sala 2 20; sala 3 30].
Definition enSala2 : Reserva.t :=
  reservaDe 3 2 (medianoche18 + minutos 10 15) (medianoche18 + minutos 10 45).

(** The [k] consecutive integers from [i] on. *)
Definition desde (i : Z) (k : nat) : list Z :=
  map (fun j => i + Z.of_nat j) (seq 0 k).

(** Seven days, in milliseconds. *)
Definition semanaMs : Z := 7 * Fecha.msPerDay.

(** In a zone of constant offset, the instant at which the local day of [t]
    begins. *)
Definition medianocheLocal (desfase t : Z) : Z :=
  Fecha.Day (t + desfase) * Fecha.msPerDay - desfase.

(** The minutes after local midnight that the clock shows at [t]. *)
Definition minutoDelDia (tz : Fecha.Zona) (t : Z) : Z :=
  60 * Fecha.getHours tz t + Fecha.getMinutes tz t.

(** All the hours of a day. *)
Definition horasDelDia : list Z := rango 24.

(** No two different hours of the day get the same label. *)
Definition etiquetasDistintas : bool :=
  forallb (fun h1 =>
             forallb (fun h2 =>
                        implb (String.eqb (formatHour h1) (formatHour h2))
                              (h1 =? h2)) horasDelDia) horasDelDia.

(** A reservation of room 1 from Sunday 2024-03-17 22:00 to Monday 05:00
    (UTC). *)
Definition nocturna : Reserva.t :=
  reservaDe 4 1 (19799 * Fecha.msPerDay + minutos 22 0)
                (medianoche18 + minutos 5 0).

(** A load counts as failed when the first query is rejected (timeout), or
    resolves with an error and the second is rejected or resolves with an
    error too. *)
Definition conError {A : Type} (p : Promesa A) : Prop :=
  match p with
  | Cumplida r => Supabase.error r <> None
  | Rechazada _ => True
  end.

Definition cargaFallida {A : Type} (carrera simple : Promesa A) : Prop :=
  match carrera with
  | Cumplida r => Supabase.error r <> None /\ conError simple
  | Rechazada _ => True
  end.

(** What a query brought back when it resolved without an error. *)
Definition datosDe {A : Type} (p : Promesa (list A)) : option (list A) :=
  match p with
  | Cumplida r =>
      match Supabase.error r with
      | None => Some (oVacia (Supabase.data r))
      | Some _ => None
      end
  | Rechazada _ => None
  end.

(** Answers of the scenarios. *)
Definition conDatos {A : Type} (l : list A) : Promesa (list A) :=
  Cumplida {| Supabase.data := Some l; Supabase.error := None |}.
Definition conFallo {A : Type} : Promesa (list A) :=
  Cumplida {| Supabase.data := None;
              Supabase.error := Some Supabase.noDisponible |}.
Definition agotada {A : Type} : Promesa (list A) :=
  Rechazada "Timeout cargando reservas".
(* ------------------------------------------------------------------------ *)
(** * Properties *)

(** ** The availability query *)

Lemma solapa_spec : forall s a b r,
  solapa s a b r = true <-> solapaSemiabierto (Salon.id s) a b r.
Proof.
  intros s a b r. unfold solapa, solapaSemiabierto.
  destruct (Z.eqb_spec (Reserva.salon_id r) (Salon.id s)) as [E | E]; simpl.
  - rewrite andb_true_iff, Z.ltb_lt, Z.gtb_gt. tauto.
  - split; [discriminate | tauto].
Qed.

Lemma find_primero : forall (A : Type) (p : A -> bool) (l : list A) (r : A),
  find p l = Some r <-> primero p l r.
Proof.
  intros A p l r. unfold primero. induction l as [| x l IH]; simpl.
  - split; [discriminate |].
    intros (l1 & l2 & E & _). destruct l1; discriminate.
  - destruct (p x) eqn:Px.
    + split.
      * intros [= <-]. exists [], l. simpl.
        split; [reflexivity | split; [exact Px | intros ? []]].
      * intros (l1 & l2 & E & Pr & N). destruct l1 as [| y l1]; simpl in E.
        -- now injection E as ->.
        -- injection E as Exy _. subst y.
           rewrite (N x) in Px by now left. discriminate.
    + rewrite IH. split.
      * intros (l1 & l2 & -> & Pr & N). exists (x :: l1), l2.
        split; [reflexivity | split; [exact Pr |]].
        intros y [<- | Hy]; [exact Px | now apply N].
      * intros (l1 & l2 & E & Pr & N). destruct l1 as [| y l1]; simpl in E.
        -- injection E as Exr _. congruence.
        -- injection E as _ El. subst l. exists l1, l2.
           split; [reflexivity | split; [exact Pr |]].
           intros z Hz. apply N. now right.
Qed.

Lemma find_ninguno : forall (A : Type) (p : A -> bool) (l : list A),
  find p l = None <-> forall x, In x l -> p x = false.
Proof.
  intros A p l. split.
  - intros H x Hx. now apply (find_none p l H).
  - intros H. destruct (find p l) eqn:F; [| reflexivity].
    apply find_some in F. destruct F as [I P]. rewrite (H _ I) in P.
    discriminate.
Qed.

Lemma verificarDisponibilidad_salones : forall reservas a b salones,
  map salon (verificarDisponibilidad reservas a b salones) = salones.
Proof.
  intros. unfold verificarDisponibilidad. rewrite map_map. simpl.
  apply map_id.
Qed.

Lemma verificarDisponibilidad_entrada : forall reservas a b salones res,
  In res (verificarDisponibilidad reservas a b salones) ->
  In (salon res) salones
  /\ conflicto res = find (solapa (salon res) a b) reservas
  /\ disponible res
     = match conflicto res with Some _ => false | None => true end.
Proof.
  intros reservas a b salones res H. unfold verificarDisponibilidad in H.
  apply in_map_iff in H. destruct H as (s & <- & Hs). simpl. auto.
Qed.

(** First match wins: the reported conflict is the first reservation of the
    snapshot, in its order, that passes the test. *)
Lemma verificarDisponibilidad_primero : forall reservas a b salones res r,
  In res (verificarDisponibilidad reservas a b salones) ->
  (conflicto res = Some r <-> primero (solapa (salon res) a b) reservas r).
Proof.
  intros reservas a b salones res r H.
  destruct (verificarDisponibilidad_entrada _ _ _ _ _ H) as (_ & C & _).
  rewrite C. apply find_primero.
Qed.

Lemma handleBuscar_ventana : forall tz salones reservas f hi hf cap res,
  handleBuscar tz salones reservas f hi hf cap = Some res ->
  exists fecha horaInicio horaFin,
    f = Some fecha /\ hi = Some horaInicio /\ hf = Some horaFin
    /\ horaInicio < horaFin
    /\ res = verificarDisponibilidad reservas
               (Fecha.deFechaHora tz fecha horaInicio)
               (Fecha.deFechaHora tz fecha horaFin)
               (filtrarPorCapacidad salones cap).
Proof.
  intros tz salones reservas [f |] [hi |] [hf |] cap res; simpl;
    try discriminate.
  destruct (Z.leb_spec hf hi); [discriminate |].
  intros [= <-]. exists f, hi, hf. auto.
Qed.

(** C1. The availability query tests a reservation [c, d) against the window
    [a, b) with [a < d && b > c] on the same room.  A reservation that starts
    exactly where the window ends ([b = c]) does not pass the test.  A room is
    reported unavailable exactly when some reservation of the snapshot passes
    the test, the reported conflict is then one that passes it, and a room
    with none is reported available with no conflict.  When the snapshot
    holds a single reservation, that reservation is the reported conflict if
    and only if it is on the room and [a < d && b > c]. *)
Theorem verificarDisponibilidad_solape :
  forall (reservas : list Reserva.t) (a b : Z) (salones : list Salon.t),
    (forall s r,
        solapa s a b r = true
        <-> Reserva.salon_id r = Salon.id s
            /\ a < Reserva.fecha_fin r /\ b > Reserva.fecha_inicio r)
    /\ (forall s r, b = Reserva.fecha_inicio r -> solapa s a b r = false)
    /\ map salon (verificarDisponibilidad reservas a b salones) = salones
    /\ (forall res,
          In res (verificarDisponibilidad reservas a b salones) ->
          (disponible res = false
           <-> exists r, In r reservas
                         /\ solapaSemiabierto (Salon.id (salon res)) a b r)
          /\ (forall r, conflicto res = Some r ->
                        In r reservas
                        /\ solapaSemiabierto (Salon.id (salon res)) a b r)
          /\ ((forall r, In r reservas ->
                         ~ solapaSemiabierto (Salon.id (salon res)) a b r)
              -> disponible res = true /\ conflicto res = None))
    /\ (forall s r,
          map conflicto (verificarDisponibilidad [r] a b [s]) = [Some r]
          <-> solapaSemiabierto (Salon.id s) a b r).
Proof.
  intros reservas a b salones.
  split; [| split; [| split; [| split]]].
  - intros s r. apply solapa_spec.
  - intros s r E. destruct (solapa s a b r) eqn:S; [| reflexivity].
    apply solapa_spec in S. unfold solapaSemiabierto in S. lia.
  - apply verificarDisponibilidad_salones.
  - intros res H.
    destruct (verificarDisponibilidad_entrada _ _ _ _ _ H) as (_ & C & D).
    rewrite D, C. split; [| split].
    + destruct (find _ reservas) as [r |] eqn:F.
      * split; [| reflexivity]. intros _. exists r.
        apply find_some in F. destruct F as [I S].
        now rewrite solapa_spec in S.
      * split; [discriminate |]. intros (r & I & S).
        apply solapa_spec in S.
        rewrite (find_none _ _ F r I) in S. discriminate.
    + intros r F. apply find_some in F. destruct F as [I S].
      now rewrite solapa_spec in S.
    + intros N. destruct (find _ reservas) as [r |] eqn:F; [| auto].
      apply find_some in F. destruct F as [I S]. apply solapa_spec in S.
      now destruct (N r I).
  - intros s r. unfold verificarDisponibilidad. simpl.
    rewrite <- solapa_spec. destruct (solapa s a b r); split; congruence.
Qed.


(** A room below the requested capacity is left out of the answer, whatever
    its reservations. *)
Lemma filtrarPorCapacidad_In : forall salones minimo s,
  In s (filtrarPorCapacidad salones (Some minimo))
  <-> In s salones /\ minimo <= Salon.capacidad s.
Proof.
  intros salones minimo s. unfold filtrarPorCapacidad.
  rewrite filter_In, Z.geb_le. tauto.
Qed.

(** C5 (as stated, refuted).  Snapshot: 10:00-11:00 then 11:00-12:00 on room
    1; query 10:30-11:30 on the same day.  The query does not report the
    second reservation: its answer is not the one the claim describes. *)
Lemma handleBuscar_dos_reservas_contraejemplo :
  handleBuscar (Fecha.zonaFija 0) [sala 1 20] [diezAOnce; onceADoce]
               (Some lunes18) (Some 630) (Some 690) None
  <> Some [{| salon := sala 1 20; disponible := false;
              conflicto := Some onceADoce |}].
Proof.
  vm_compute. intros H. injection H as H. discriminate H.
Qed.

(** C5 (amended).  With exactly two reservations of the same room in the
    snapshot, [t+10:00, t+11:00) followed by [t+11:00, t+12:00), the query
    over [t+10:30, t+11:30) reports the room unavailable with exactly one
    conflicting reservation, namely the first one in snapshot order; both
    reservations pass the overlap test. *)
Theorem verificarDisponibilidad_dos_reservas :
  forall (s : Salon.t) (r1 r2 : Reserva.t) (t : Z),
    Reserva.salon_id r1 = Salon.id s ->
    Reserva.salon_id r2 = Salon.id s ->
    Reserva.fecha_inicio r1 = t + minutos 10 0 ->
    Reserva.fecha_fin r1 = t + minutos 11 0 ->
    Reserva.fecha_inicio r2 = t + minutos 11 0 ->
    Reserva.fecha_fin r2 = t + minutos 12 0 ->
    verificarDisponibilidad [r1; r2] (t + minutos 10 30) (t + minutos 11 30) [s]
    = [{| salon := s; disponible := false; conflicto := Some r1 |}]
    /\ solapa s (t + minutos 10 30) (t + minutos 11 30) r1 = true
    /\ solapa s (t + minutos 10 30) (t + minutos 11 30) r2 = true.
Proof.
  intros s r1 r2 t S1 S2 I1 F1 I2 F2.
  assert (O1 : solapa s (t + minutos 10 30) (t + minutos 11 30) r1 = true).
  { apply solapa_spec. unfold solapaSemiabierto. rewrite S1, I1, F1.
    unfold minutos, Fecha.msPerMinute. lia. }
  assert (O2 : solapa s (t + minutos 10 30) (t + minutos 11 30) r2 = true).
  { apply solapa_spec. unfold solapaSemiabierto. rewrite S2, I2, F2.
    unfold minutos, Fecha.msPerMinute. lia. }
  split; [| split; assumption].
  unfold verificarDisponibilidad. simpl. rewrite O1. reflexivity.
Qed.

Lemma verificarDisponibilidad_dos_reservas_testigo :
  verificarDisponibilidad [diezAOnce; onceADoce]
    (medianoche18 + minutos 10 30) (medianoche18 + minutos 11 30) [sala 1 20]
  = [{| salon := sala 1 20; disponible := false; conflicto := Some diezAOnce |}]
  /\ solapa (sala 1 20) (medianoche18 + minutos 10 30)
       (medianoche18 + minutos 11 30) diezAOnce = true
  /\ solapa (sala 1 20) (medianoche18 + minutos 10 30)
       (medianoche18 + minutos 11 30) onceADoce = true.
Proof.
  apply (verificarDisponibilidad_dos_reservas (sala 1 20) diezAOnce onceADoce
           medianoche18); reflexivity.
Defined.

(** ** The room status of the card view *)

Lemma filter_no_vacio : forall (A : Type) (p : A -> bool) (l : list A),
  (Z.of_nat (List.length (filter p l)) >? 0) = true
  <-> exists x, In x l /\ p x = true.
Proof.
  intros A p l. rewrite Z.gtb_gt. split.
  - destruct (filter p l) as [| x f] eqn:F; simpl; [lia |].
    intros _. exists x. apply filter_In. rewrite F. now left.
  - intros (x & I & P).
    assert (H : In x (filter p l)) by (apply filter_In; auto).
    destruct (filter p l); [destruct H | simpl; lia].
Qed.

(** C9.  [getSalonStatus] answers [ocupado] exactly when some reservation of
    the room has [fecha_inicio <= now] and [fecha_fin >= now], both ends
    included.  So a reservation that ends exactly at [now] keeps the room
    occupied, whereas the availability query, asked about a window that
    starts at that same instant, does not count that reservation. *)
Theorem getSalonStatus_intervalo_cerrado :
  forall (reservas : list Reserva.t) (now salonId : Z),
    (getSalonStatus reservas now salonId = ocupado
     <-> exists r, In r reservas
                   /\ Reserva.salon_id r = salonId
                   /\ Reserva.fecha_inicio r <= now
                   /\ Reserva.fecha_fin r >= now)
    /\ (forall r, In r reservas ->
                  Reserva.salon_id r = salonId ->
                  Reserva.fecha_inicio r <= now ->
                  Reserva.fecha_fin r = now ->
                  getSalonStatus reservas now salonId = ocupado)
    /\ (forall s r fin,
          Reserva.fecha_fin r = now -> solapa s now fin r = false).
Proof.
  intros reservas now salonId.
  assert (E : getSalonStatus reservas now salonId = ocupado
              <-> exists r, In r reservas
                            /\ Reserva.salon_id r = salonId
                            /\ Reserva.fecha_inicio r <= now
                            /\ Reserva.fecha_fin r >= now).
  { unfold getSalonStatus.
    match goal with
    | |- (if ?c then _ else _) = _ <-> _ => destruct c eqn:C
    end.
    - split; [intros _ | reflexivity].
      apply filter_no_vacio in C. destruct C as (r & I & P).
      exists r. apply andb_true_iff in P. destruct P as [P P3].
      apply andb_true_iff in P. destruct P as [P1 P2].
      apply Z.eqb_eq in P1. apply Z.leb_le in P2. apply Z.geb_le in P3.
      repeat split; try assumption; lia.
    - split; [discriminate |]. intros (r & I & S & A & B).
      assert (T : (Z.of_nat (List.length (filter
                     (fun r => (Reserva.salon_id r =? salonId)
                               && (Reserva.fecha_inicio r <=? now)
                               && (Reserva.fecha_fin r >=? now)) reservas))
                   >? 0) = true).
      { apply filter_no_vacio. exists r. split; [assumption |].
        rewrite !andb_true_iff, Z.eqb_eq, Z.leb_le, Z.geb_le. lia. }
      rewrite T in C. discriminate. }
  split; [exact E | split].
  - intros r I S A B. apply E. exists r. repeat split; try assumption; lia.
  - intros s r fin B. destruct (solapa s now fin r) eqn:S; [| reflexivity].
    apply solapa_spec in S. unfold solapaSemiabierto in S. lia.
Qed.

(** ** The local calendar *)

Lemma MonthFromTime_rango : forall t,
  0 <= Fecha.MonthFromTime t <= 11.
Proof.
  intros t. unfold Fecha.MonthFromTime.
  repeat match goal with
         | |- context [if ?c then _ else _] => destruct c
         end; lia.
Qed.

(** Setting the day of the month to [DateFromTime t + n] lands [n] days
    after the day of [t], whatever month and year that takes. *)
Lemma MakeDay_DateFromTime : forall t n,
  Fecha.MakeDay (Fecha.YearFromTime t) (Fecha.MonthFromTime t)
                (Fecha.DateFromTime t + n)
  = Fecha.Day t + n.
Proof.
  intros t n. pose proof (MonthFromTime_rango t) as M.
  unfold Fecha.MakeDay.
  rewrite (Z.div_small (Fecha.MonthFromTime t) 12) by lia.
  rewrite (Z.mod_small (Fecha.MonthFromTime t) 12) by lia.
  rewrite Z.add_0_r.
  unfold Fecha.DateFromTime, Fecha.DayWithinYear, Fecha.InLeapYear. lia.
Qed.

Lemma MakeDate_Day : forall t n,
  Fecha.MakeDate (Fecha.Day t + n) (Fecha.TimeWithinDay t)
  = t + n * Fecha.msPerDay.
Proof.
  intros t n. unfold Fecha.MakeDate, Fecha.Day, Fecha.TimeWithinDay.
  pose proof (Z.div_mod t Fecha.msPerDay) as D.
  unfold Fecha.msPerDay in *. lia.
Qed.

(** [d.setDate(d.getDate() + n)] moves the local time of [d] by [n] whole
    days and reads the result back as a local time. *)
Lemma setDate_getDate : forall tz t n,
  Fecha.setDate tz t (Fecha.getDate tz t + n)
  = Fecha.UTC tz (Fecha.LocalTime tz t + n * Fecha.msPerDay).
Proof.
  intros tz t n. unfold Fecha.setDate, Fecha.getDate.
  rewrite MakeDay_DateFromTime, MakeDate_Day. reflexivity.
Qed.

Lemma desplazar_local : forall tz base i,
  desplazar tz base i
  = Fecha.UTC tz (Fecha.LocalTime tz base + i * 7 * Fecha.msPerDay).
Proof.
  intros tz base i. unfold desplazar. apply setDate_getDate.
Qed.

Lemma desplazar_cero : forall tz base,
  sinAmbiguedad tz base -> desplazar tz base 0 = base.
Proof.
  intros tz base H. rewrite desplazar_local.
  replace (Fecha.LocalTime tz base + 0 * 7 * Fecha.msPerDay)
    with (Fecha.LocalTime tz base) by lia.
  exact H.
Qed.

Lemma desplazar_estable : forall tz base n i,
  desfaseEstable tz base n -> 0 <= i < n ->
  desplazar tz base i = base + i * 7 * Fecha.msPerDay.
Proof.
  intros tz base n i H Hi. rewrite desplazar_local.
  unfold Fecha.UTC. rewrite (H i Hi). unfold Fecha.LocalTime. lia.
Qed.

Lemma zonaFija_estable : forall desfase base n,
  desfaseEstable (Fecha.zonaFija desfase) base n.
Proof. intros desfase base n i _. reflexivity. Qed.

Lemma zonaFija_sinAmbiguedad : forall desfase t,
  sinAmbiguedad (Fecha.zonaFija desfase) t.
Proof.
  intros desfase t. unfold sinAmbiguedad, Fecha.UTC, Fecha.LocalTime.
  unfold Fecha.zonaFija. lia.
Qed.

(** A zone with one forward change has no repeated hour. *)
Lemma zonaConCambio_sinAmbiguedad : forall cambio antes despues t,
  antes <= despues ->
  sinAmbiguedad (Fecha.zonaConCambio cambio antes despues) t.
Proof.
  intros cambio antes despues t H.
  unfold sinAmbiguedad, Fecha.UTC, Fecha.LocalTime, Fecha.zonaConCambio.
  destruct (Z.ltb_spec t cambio) as [A | A];
    match goal with
    | |- context [if ?c then _ else _] => destruct c eqn:C
    end; lia.
Qed.


(** ** The recurrence loop *)

Section BucleFacts.

Variable tz : Fecha.Zona.
Variable salon_ : Salon.t.
Variable user_id_ : Z.
Variable form : Formulario.
Variables inicioBase finBase : Z.

Lemma trasLlamadas_nada : forall db, trasLlamadas [] [] db = db.
Proof.
  intros [t r f]. unfold trasLlamadas. simpl. now rewrite !app_nil_r.
Qed.

Lemma trasLlamadas_anotar : forall c cs db,
  trasLlamadas cs [] (Supabase.anotar c (Supabase.tabla db) db)
  = trasLlamadas (c :: cs) [] db.
Proof.
  intros c cs db. unfold trasLlamadas, Supabase.anotar. simpl.
  now rewrite <- app_assoc.
Qed.

Lemma generadas_cota : forall restantes i j,
  In j (generadas tz form inicioBase restantes i) -> i <= j.
Proof.
  induction restantes as [| n IH]; intros i j; simpl; [tauto |].
  destruct (pasaLimite form (desplazar tz inicioBase i)); [simpl; tauto |].
  intros [<- | H]; [lia |]. apply IH in H. lia.
Qed.

Lemma conflictiva_anotar : forall c db i j,
  i + 1 <= j ->
  conflictiva tz salon_ inicioBase finBase
    (Supabase.anotar c (Supabase.tabla db) db) (i + 1) j
  = conflictiva tz salon_ inicioBase finBase db i j.
Proof.
  intros c db i j H. unfold conflictiva, existentesDe, Supabase.anotar.
  unfold Supabase.turno. simpl. rewrite length_app. simpl.
  replace (List.length (Supabase.registro db) + 1 + Z.to_nat (j - (i + 1)))%nat
    with (List.length (Supabase.registro db) + Z.to_nat (j - i))%nat by lia.
  reflexivity.
Qed.

Lemma conflictiva_aqui : forall db i,
  conflictiva tz salon_ inicioBase finBase db i i
  = hayExistentes
      (Supabase.data (fst (Supabase.select (Salon.id salon_)
                             (desplazar tz finBase i)
                             (desplazar tz inicioBase i) db))).
Proof.
  intros db i. unfold conflictiva, existentesDe, Supabase.select.
  rewrite Z.sub_diag. simpl. rewrite Nat.add_0_r.
  destruct (Supabase.falla db (Supabase.turno db)); reflexivity.
Qed.

Lemma filter_conflictiva_anotar : forall c db n i,
  filter (conflictiva tz salon_ inicioBase finBase
            (Supabase.anotar c (Supabase.tabla db) db) (i + 1))
         (generadas tz form inicioBase n (i + 1))
  = filter (conflictiva tz salon_ inicioBase finBase db i)
           (generadas tz form inicioBase n (i + 1)).
Proof.
  intros c db n i. apply filter_ext_in. intros j Hj.
  apply conflictiva_anotar. apply generadas_cota in Hj. lia.
Qed.

Lemma filter_libre_anotar : forall c db n i,
  filter (fun j => negb (conflictiva tz salon_ inicioBase finBase
                           (Supabase.anotar c (Supabase.tabla db) db)
                           (i + 1) j))
         (generadas tz form inicioBase n (i + 1))
  = filter (fun j => negb (conflictiva tz salon_ inicioBase finBase db i j))
           (generadas tz form inicioBase n (i + 1)).
Proof.
  intros c db n i. apply filter_ext_in. intros j Hj. f_equal.
  apply conflictiva_anotar. apply generadas_cota in Hj. lia.
Qed.

(** The loop, as a function of the occurrences it generates and of the
    probes that found something. *)
Lemma bucle_spec : forall restantes i rs cs db,
  bucle tz salon_ user_id_ form inicioBase finBase restantes i rs cs db
  = (inr (rs ++ map (fila tz salon_ user_id_ form inicioBase finBase)
                    (filter (fun j => negb (conflictiva tz salon_ inicioBase
                                              finBase db i j))
                            (generadas tz form inicioBase restantes i)),
          cs ++ map (aviso tz inicioBase)
                    (filter (conflictiva tz salon_ inicioBase finBase db i)
                            (generadas tz form inicioBase restantes i))),
     trasLlamadas (map (consulta tz salon_ inicioBase finBase)
                       (generadas tz form inicioBase restantes i)) [] db).
Proof.
  induction restantes as [| n IH]; intros i rs cs db.
  - simpl. unfold ret. now rewrite !app_nil_r, trasLlamadas_nada.
  - cbn [bucle generadas].
    destruct (pasaLimite form (desplazar tz inicioBase i)).
    + simpl. unfold ret. now rewrite !app_nil_r, trasLlamadas_nada.
    + cbn [filter map]. rewrite (conflictiva_aqui db i).
      unfold bind at 1. unfold await.
      destruct (Supabase.select (Salon.id salon_) (desplazar tz finBase i)
                  (desplazar tz inicioBase i) db) as [r db'] eqn:S.
      assert (D : db' = Supabase.anotar
                          (consulta tz salon_ inicioBase finBase i)
                          (Supabase.tabla db) db).
      { unfold Supabase.select in S.
        destruct (Supabase.falla db (Supabase.turno db));
          injection S as _ <-; reflexivity. }
      subst db'. cbn [fst].
      destruct (hayExistentes (Supabase.data r)); cbn [negb map];
        rewrite IH, trasLlamadas_anotar, filter_conflictiva_anotar,
          filter_libre_anotar, <- ?app_assoc; reflexivity.
Qed.

End BucleFacts.

(** ** The booking form *)

Lemma filter_todos : forall (A : Type) (p : A -> bool) (l : list A),
  filter p l = [] -> filter (fun x => negb (p x)) l = l.
Proof.
  intros A p l. induction l as [| x l IH]; simpl; [reflexivity |].
  destruct (p x); simpl; [discriminate |]. intros H. now rewrite IH.
Qed.

Lemma longitud_positiva : forall (A : Type) (l : list A),
  (Z.of_nat (List.length l) >? 0) = true <-> l <> [].
Proof.
  intros A l. rewrite Z.gtb_gt. destruct l; simpl; split;
    try lia; try congruence.
Qed.

Section FormFacts.

Variable tz : Fecha.Zona.
Variable salon_ : Salon.t.
Variable user_id_ : Z.
Variable form : Formulario.

(** The recurring path when some probe found a row: the conflict notices are
    thrown, and the backend has received the probes and nothing else. *)
Lemma crearReservasRecurrentes_aborta : forall a b db,
  filter (conflictiva tz salon_ a b db 0)
         (generadas tz form a (vueltas form) 0) <> [] ->
  crearReservasRecurrentes tz salon_ user_id_ form a b db
  = (inl (ErrorConflictos
            (map (aviso tz a)
                 (filter (conflictiva tz salon_ a b db 0)
                         (generadas tz form a (vueltas form) 0)))),
     trasLlamadas (map (consulta tz salon_ a b)
                       (generadas tz form a (vueltas form) 0)) [] db).
Proof.
  intros a b db H. unfold crearReservasRecurrentes, bind at 1.
  rewrite bucle_spec. cbn [app].
  rewrite length_map.
  apply longitud_positiva in H. rewrite H. reflexivity.
Qed.

(** The recurring path when no probe found a row: every generated occurrence
    goes into one [insert]. *)
Lemma crearReservasRecurrentes_inserta : forall a b db,
  filter (conflictiva tz salon_ a b db 0)
         (generadas tz form a (vueltas form) 0) = [] ->
  crearReservasRecurrentes tz salon_ user_id_ form a b db
  = let g := generadas tz form a (vueltas form) 0 in
    let filas := map (fila tz salon_ user_id_ form a b) g in
    let (r, db') :=
      Supabase.insert filas
        (trasLlamadas (map (consulta tz salon_ a b) g) [] db) in
    (match Supabase.error r with
     | Some insertError => inl (ErrorSupabase insertError)
     | None => inr (vistaExito (Some (Z.of_nat (List.length filas))))
     end, db').
Proof.
  intros a b db H. unfold crearReservasRecurrentes, bind at 1.
  rewrite bucle_spec. cbn [app]. rewrite H.
  rewrite (filter_todos _ _ _ H). cbn [map List.length Z.of_nat].
  cbn [Z.gtb Z.compare]. unfold bind, await. cbv zeta.
  destruct (Supabase.insert _ _) as [r db'].
  destruct (Supabase.error r); reflexivity.
Qed.

Lemma handleSubmit_recurrente : forall db,
  esRecurrente form = true -> fechaInicio form < fechaFin form ->
  handleSubmit tz salon_ user_id_ form db
  = match crearReservasRecurrentes tz salon_ user_id_ form
            (fechaInicio form) (fechaFin form) db with
    | (inr vista, db') => (vista, db')
    | (inl err, db') => (vistaError err, db')
    end.
Proof.
  intros db R L. unfold handleSubmit. rewrite R.
  destruct (Z.leb_spec (fechaFin form) (fechaInicio form)); [lia |].
  reflexivity.
Qed.

End FormFacts.

Lemma trasLlamadas_solo_registro : forall cs db,
  trasLlamadas cs [] db
  = {| Supabase.tabla := Supabase.tabla db;
       Supabase.registro := Supabase.registro db ++ cs;
       Supabase.falla := Supabase.falla db |}.
Proof.
  intros cs db. unfold trasLlamadas. now rewrite app_nil_r.
Qed.

(** C2.  Let the conflict set be the generated occurrences whose probe
    brought back at least one row.  If it is not empty, the recurring path
    throws the list of conflicts, which names exactly those occurrences by
    their 1-based week number, and the backend has received the probes and
    no insert: the table is untouched.  If it is empty, the probes are
    followed by a single insert that carries every generated occurrence;
    when the backend serves that insert, all of them are stored and the form
    announces their number. *)
Theorem crearReservasRecurrentes_todo_o_nada :
  forall (tz : Fecha.Zona) (salon_ : Salon.t) (user_id_ : Z)
         (form : Formulario) (a b : Z) (db : Supabase.t),
    let g := generadas tz form a (vueltas form) 0 in
    let conflictivas := filter (conflictiva tz salon_ a b db 0) g in
    let final := crearReservasRecurrentes tz salon_ user_id_ form a b db in
    (conflictivas <> [] ->
       (exists cs, fst final = inl (ErrorConflictos cs)
                   /\ map semana cs = map (fun i => i + 1) conflictivas)
       /\ Supabase.registro (snd final)
          = Supabase.registro db ++ map (consulta tz salon_ a b) g
       /\ Supabase.tabla (snd final) = Supabase.tabla db)
    /\ (conflictivas = [] ->
        Supabase.registro (snd final)
        = Supabase.registro db ++ map (consulta tz salon_ a b) g
            ++ [Supabase.Insert (map (fila tz salon_ user_id_ form a b) g)]
        /\ (Supabase.falla db (Supabase.turno db + List.length g)%nat = false ->
            fst final = inr (vistaExito (Some (Z.of_nat (List.length g))))
            /\ Supabase.tabla (snd final)
               = Supabase.tabla db
                   ++ Supabase.almacenar
                        (Supabase.siguienteId (Supabase.tabla db))
                        (map (fila tz salon_ user_id_ form a b) g))).
Proof.
  intros tz salon_ user_id_ form a b db g conflictivas final.
  subst final conflictivas. split; intros H.
  - subst g.
    rewrite (crearReservasRecurrentes_aborta _ _ _ _ _ _ _ H). simpl.
    split; [| split].
    + eexists. split; [reflexivity |]. rewrite map_map. reflexivity.
    + reflexivity.
    + apply app_nil_r.
  - rewrite (crearReservasRecurrentes_inserta _ _ _ _ _ _ _ H). cbv zeta.
    fold g. rewrite trasLlamadas_solo_registro.
    unfold Supabase.insert, Supabase.turno. cbn [Supabase.registro
      Supabase.falla Supabase.tabla].
    rewrite length_app, length_map.
    destruct (Supabase.falla db _) eqn:F; simpl.
    + split; [now rewrite <- app_assoc | discriminate].
    + split; [now rewrite <- app_assoc |]. intros _.
      now rewrite length_map.
Qed.

(** A run of the recurring path in Madrid: four Mondays from 2024-03-11,
    10:00 to 11:00, when room 1 is taken on Monday 2024-03-25 from 10:30 to
    11:30.  All four probes are sent, the third one finds the reservation,
    the error names week 3 and the table is left as it was. *)
Example crearReservasRecurrentes_semana_3 :
  let ocupada :=
    reservaDe 1 1 (19807 * Fecha.msPerDay + minutos 9 30)
                  (19807 * Fecha.msPerDay + minutos 10 30) in
  let db := respaldo [ocupada] atiende in
  handleSubmit madrid (sala 1 20) 7 (semanal lunes11_10h lunes11_11h 4) db
  = (vistaError
       (ErrorConflictos
          [{| semana := 3;
              fecha := {| Fecha.weekday := 1; Fecha.day := 25;
                          Fecha.month := 2 |} |}]),
     trasLlamadas
       (map (consulta madrid (sala 1 20) lunes11_10h lunes11_11h)
            [0; 1; 2; 3]) [] db).
Proof. vm_compute. reflexivity. Qed.

(** C7.  A submission whose end is not strictly after its start is rejected
    with the validation error shown inline, and the backend is left exactly
    as it was: no request reaches it, so no reservation is created and a
    table in which every reservation ends after it starts stays so. *)
Theorem handleSubmit_fin_no_posterior :
  forall (tz : Fecha.Zona) (salon_ : Salon.t) (user_id_ : Z)
         (form : Formulario) (db : Supabase.t),
    fechaFin form <= fechaInicio form ->
    handleSubmit tz salon_ user_id_ form db = (vistaError finNoPosterior, db)
    /\ Supabase.registro (snd (handleSubmit tz salon_ user_id_ form db))
       = Supabase.registro db
    /\ (finPosterior (Supabase.tabla db) ->
        finPosterior
          (Supabase.tabla (snd (handleSubmit tz salon_ user_id_ form db)))).
Proof.
  intros tz salon_ user_id_ form db H.
  assert (E : handleSubmit tz salon_ user_id_ form db
              = (vistaError finNoPosterior, db)).
  { unfold handleSubmit.
    destruct (Z.leb_spec (fechaFin form) (fechaInicio form)); [| lia].
    reflexivity. }
  rewrite E. simpl. auto.
Qed.

Lemma handleSubmit_fin_no_posterior_testigo :
  handleSubmit madrid (sala 1 20) 7 (semanal lunes11_11h lunes11_10h 4)
    (respaldo [diezAOnce] atiende)
  = (vistaError finNoPosterior, respaldo [diezAOnce] atiende)
  /\ Supabase.registro
       (snd (handleSubmit madrid (sala 1 20) 7
               (semanal lunes11_11h lunes11_10h 4)
               (respaldo [diezAOnce] atiende)))
     = Supabase.registro (respaldo [diezAOnce] atiende)
  /\ (finPosterior (Supabase.tabla (respaldo [diezAOnce] atiende)) ->
      finPosterior
        (Supabase.tabla
           (snd (handleSubmit madrid (sala 1 20) 7
                   (semanal lunes11_11h lunes11_10h 4)
                   (respaldo [diezAOnce] atiende))))).
Proof.
  apply (handleSubmit_fin_no_posterior madrid (sala 1 20) 7
           (semanal lunes11_11h lunes11_10h 4) (respaldo [diezAOnce] atiende)).
  vm_compute. discriminate.
Defined.

(** A one-off booking that passes the validation sends one insert with one
    row, the submitted window; when the backend serves it, the table keeps
    every reservation ending after it starts. *)
Lemma handleSubmit_simple : forall tz salon_ user_id_ form db,
  esRecurrente form = false -> fechaInicio form < fechaFin form ->
  Supabase.registro (snd (handleSubmit tz salon_ user_id_ form db))
  = Supabase.registro db
      ++ [Supabase.Insert
            [nuevaReserva salon_ user_id_ (fechaInicio form) (fechaFin form)
               (proposito form)]]
  /\ (finPosterior (Supabase.tabla db) ->
      finPosterior
        (Supabase.tabla (snd (handleSubmit tz salon_ user_id_ form db)))).
Proof.
  intros tz salon_ user_id_ form db R L. unfold handleSubmit. rewrite R.
  destruct (Z.leb_spec (fechaFin form) (fechaInicio form)); [lia |].
  unfold crearReservaSimple, bind, await, Supabase.insert.
  destruct (Supabase.falla db (Supabase.turno db)); simpl.
  - auto.
  - split; [reflexivity |]. intros I r Hr. apply in_app_or in Hr.
    destruct Hr as [Hr | [<- | []]]; [now apply I | simpl; lia].
Qed.

(** ** Probes *)

Lemma filtro_spec : forall s lte gte r,
  Supabase.filtro s lte gte r = true <-> solapaCerrado s gte lte r.
Proof.
  intros s lte gte r. unfold Supabase.filtro, solapaCerrado.
  rewrite !andb_true_iff, Z.eqb_eq, Z.leb_le, Z.geb_le. lia.
Qed.

Lemma sonda_fallida_no_conflictiva : forall tz salon_ a b db i j,
  Supabase.falla db (Supabase.turno db + Z.to_nat (j - i))%nat = true ->
  conflictiva tz salon_ a b db i j = false.
Proof.
  intros tz salon_ a b db i j H. unfold conflictiva, existentesDe.
  now rewrite H.
Qed.


(** C3 (the code at the failing input).  A probe that is answered with an
    error counts as a probe that found nothing.  Room 1 is already reserved
    on Monday 2024-03-18 from 10:00 to 11:00; a series of four weeks is
    submitted for that very slot and the first probe fails.  The form
    reports success, the log shows the insert after the four probes, and the
    table ends with two reservations of room 1 on the same slot. *)
Theorem crearReservasRecurrentes_sonda_fallida :
  let a := medianoche18 + minutos 10 0 in
  let b := medianoche18 + minutos 11 0 in
  let db := respaldo [diezAOnce] fallaLaPrimera in
  let final := handleSubmit utc (sala 1 20) 7 (semanal a b 4) db in
  (forall tz salon_ (db' : Supabase.t) j,
      Supabase.falla db' (Supabase.turno db' + Z.to_nat j)%nat = true ->
      conflictiva tz salon_ a b db' 0 j = false)
  /\ fst final = vistaExito (Some 4)
  /\ Supabase.registro (snd final)
     = map (consulta utc (sala 1 20) a b) [0; 1; 2; 3]
         ++ [Supabase.Insert
               (map (fila utc (sala 1 20) 7 (semanal a b 4) a b)
                    [0; 1; 2; 3])]
  /\ (exists r, In r (Supabase.tabla (snd final))
                /\ r <> diezAOnce
                /\ Reserva.salon_id r = Reserva.salon_id diezAOnce
                /\ Reserva.fecha_inicio r = Reserva.fecha_inicio diezAOnce
                /\ Reserva.fecha_fin r = Reserva.fecha_fin diezAOnce).
Proof.
  intros a b db final. split; [| split; [| split]].
  - intros tz salon_ db' j H. apply sonda_fallida_no_conflictiva.
    now rewrite Z.sub_0_r.
  - vm_compute. reflexivity.
  - vm_compute. reflexivity.
  - exists {| Reserva.id := 2; Reserva.salon_id := 1; Reserva.user_id := 7;
              Reserva.fecha_inicio := a; Reserva.fecha_fin := b;
              Reserva.proposito := "Clase (Semana 1)" |}.
    split; [| split; [| auto]].
    + vm_compute. right. left. reflexivity.
    + discriminate.
Qed.

(** C4 (the code at the failing input).  The probe keeps the rows of the
    room with [fecha_inicio <= end] and [fecha_fin >= start]: a closed test.
    A reservation that ends exactly where the occurrence starts passes it,
    and does not pass the test of the availability query.  Room 1 is
    reserved on Monday 2024-03-18 from 10:00 to 11:00: the availability
    query reports it available from 11:00 to 12:00, and a series of four
    weeks for 11:00 to 12:00 is refused with a conflict on week 1. *)
Theorem sonda_intervalo_cerrado :
  let a := medianoche18 + minutos 11 0 in
  let b := medianoche18 + minutos 12 0 in
  let db := respaldo [diezAOnce] atiende in
  (forall s inicio fin r,
      Supabase.filtro s fin inicio r = true
      <-> Reserva.salon_id r = s
          /\ Reserva.fecha_inicio r <= fin /\ Reserva.fecha_fin r >= inicio)
  /\ (forall salon_ inicio fin r,
        Reserva.salon_id r = Salon.id salon_ ->
        Reserva.fecha_inicio r <= fin ->
        Reserva.fecha_fin r = inicio ->
        Supabase.filtro (Salon.id salon_) fin inicio r = true
        /\ solapa salon_ inicio fin r = false)
  /\ handleBuscar utc [sala 1 20] [diezAOnce]
       (Some lunes18) (Some 660) (Some 720) None
     = Some [{| salon := sala 1 20; disponible := true; conflicto := None |}]
  /\ handleSubmit utc (sala 1 20) 7 (semanal a b 4) db
     = (vistaError (ErrorConflictos [aviso utc a 0]),
        trasLlamadas (map (consulta utc (sala 1 20) a b) [0; 1; 2; 3]) [] db).
Proof.
  intros a b db. split; [| split; [| split]].
  - intros s inicio fin r. apply filtro_spec.
  - intros salon_ inicio fin r S I F. split.
    + apply filtro_spec. unfold solapaCerrado. lia.
    + destruct (solapa salon_ inicio fin r) eqn:E; [| reflexivity].
      apply solapa_spec in E. unfold solapaSemiabierto in E. lia.
  - vm_compute. reflexivity.
  - vm_compute. reflexivity.
Qed.

(** C10.  A series bounded by a stop date that lies before the start of the
    base window (the start being an instant the local calendar reads back
    unchanged) generates no occurrence and sends no probe: the only request
    is an insert of an empty batch.  When the backend serves it, the form
    reports success, announcing 0 reservations; in no case is the outcome a
    validation error. *)
Theorem handleSubmit_limite_anterior :
  forall (tz : Fecha.Zona) (salon_ : Salon.t) (user_id_ : Z)
         (form : Formulario) (db : Supabase.t) (limite : Z),
    esRecurrente form = true ->
    tipoRecurrencia form = date ->
    fechaFinRecurrencia form = Some limite ->
    fechaInicio form < fechaFin form ->
    limite < fechaInicio form ->
    sinAmbiguedad tz (fechaInicio form) ->
    generadas tz form (fechaInicio form) (vueltas form) 0 = []
    /\ Supabase.registro (snd (handleSubmit tz salon_ user_id_ form db))
       = Supabase.registro db ++ [Supabase.Insert []]
    /\ (Supabase.falla db (Supabase.turno db) = false ->
        handleSubmit tz salon_ user_id_ form db
        = (vistaExito (Some 0), trasLlamadas [Supabase.Insert []] [] db))
    /\ (forall m, error (fst (handleSubmit tz salon_ user_id_ form db))
                  <> Some (ErrorValidacion m)).
Proof.
  intros tz salon_ user_id_ form db limite R T F L D A.
  assert (G : generadas tz form (fechaInicio form) (vueltas form) 0 = []).
  { destruct (vueltas form) as [| n]; [reflexivity |]. simpl.
    rewrite (desplazar_cero tz _ A).
    unfold pasaLimite, fechaLimite. rewrite T, F.
    destruct (Z.gtb_spec (fechaInicio form) limite); [reflexivity | lia]. }
  split; [exact G |].
  rewrite (handleSubmit_recurrente tz salon_ user_id_ form db R L).
  rewrite crearReservasRecurrentes_inserta by (rewrite G; reflexivity).
  rewrite G. cbv zeta. cbn [map]. unfold Supabase.insert.
  assert (Tu : Supabase.turno (trasLlamadas [] [] db) = Supabase.turno db)
    by now rewrite trasLlamadas_nada.
  rewrite trasLlamadas_nada.
  destruct (Supabase.falla db (Supabase.turno db)) eqn:Fa; simpl.
  - split; [reflexivity |]. split; [discriminate |].
    intros m. discriminate.
  - split; [reflexivity |]. split.
    + intros _. unfold trasLlamadas, Supabase.anotar. reflexivity.
    + intros m. discriminate.
Qed.

Lemma handleSubmit_limite_anterior_testigo :
  let form := hastaFecha lunes11_10h lunes11_11h (19790 * Fecha.msPerDay) in
  let db := respaldo [diezAOnce] atiende in
  generadas madrid form (fechaInicio form) (vueltas form) 0 = []
  /\ Supabase.registro (snd (handleSubmit madrid (sala 1 20) 7 form db))
     = Supabase.registro db ++ [Supabase.Insert []]
  /\ (Supabase.falla db (Supabase.turno db) = false ->
      handleSubmit madrid (sala 1 20) 7 form db
      = (vistaExito (Some 0), trasLlamadas [Supabase.Insert []] [] db))
  /\ (forall m, error (fst (handleSubmit madrid (sala 1 20) 7 form db))
                <> Some (ErrorValidacion m)).
Proof.
  apply (handleSubmit_limite_anterior madrid (sala 1 20) 7
           (hastaFecha lunes11_10h lunes11_11h (19790 * Fecha.msPerDay))
           (respaldo [diezAOnce] atiende) (19790 * Fecha.msPerDay));
    try reflexivity.
Defined.

(** ** Series of four weeks *)






(** ** The timeline placement *)

Lemma calculateReservaPosition_horas : forall tz reserva,
  calculateReservaPosition tz reserva
  = posicionHoras
      (hora (Fecha.getHours tz (Reserva.fecha_inicio reserva))
            (Fecha.getMinutes tz (Reserva.fecha_inicio reserva)))
      (hora (Fecha.getHours tz (Reserva.fecha_fin reserva))
            (Fecha.getMinutes tz (Reserva.fecha_fin reserva))).
Proof. intros tz reserva. reflexivity. Qed.

Lemma rango_In : forall n z, 0 <= z < Z.of_nat n -> In z (rango n).
Proof.
  intros n z H. unfold rango. apply in_map_iff. exists (Z.to_nat z).
  split; [lia |]. apply in_seq. lia.
Qed.

Lemma relojes_In : forall h m,
  0 <= h < 24 -> 0 <= m < 60 -> In (60 * h + m, hora h m) relojes.
Proof.
  intros h m Hh Hm. unfold relojes. apply in_flat_map. exists h.
  split; [apply rango_In; lia |].
  apply in_map_iff. exists m. split; [reflexivity | apply rango_In; lia].
Qed.

(** Checked on each of the 1440 x 1440 pairs of clock readings. *)
Lemma relojes_cerca :
  forallb (fun s => forallb (cercaEntre s) relojes) relojes = true.
Proof. vm_compute. reflexivity. Qed.

Lemma getHours_rango : forall tz t, 0 <= Fecha.getHours tz t < 24.
Proof.
  intros tz t. unfold Fecha.getHours, Fecha.HourFromTime.
  apply Z.mod_pos_bound. lia.
Qed.

Lemma getMinutes_rango : forall tz t, 0 <= Fecha.getMinutes tz t < 60.
Proof.
  intros tz t. unfold Fecha.getMinutes, Fecha.MinFromTime.
  apply Z.mod_pos_bound. lia.
Qed.

Lemma forallb_pares : forall (A : Type) (f : A -> A -> bool) (t : list A),
  forallb (fun s => forallb (f s) t) t = true ->
  forall s e, In s t -> In e t -> f s e = true.
Proof.
  intros A f t H s e Hs He. rewrite forallb_forall in H.
  specialize (H s Hs). rewrite forallb_forall in H. exact (H e He).
Qed.

(** The placement is within 2^-40 pixel of one pixel per minute, clipped. *)
Lemma calculateReservaPosition_exacta : forall tz reserva,
  cercaPosicion (calculateReservaPosition tz reserva)
    (60 * Fecha.getHours tz (Reserva.fecha_inicio reserva)
     + Fecha.getMinutes tz (Reserva.fecha_inicio reserva))
    (60 * Fecha.getHours tz (Reserva.fecha_fin reserva)
     + Fecha.getMinutes tz (Reserva.fecha_fin reserva))
  = true.
Proof.
  intros tz reserva. rewrite calculateReservaPosition_horas.
  set (hs := Fecha.getHours tz (Reserva.fecha_inicio reserva)).
  set (ms := Fecha.getMinutes tz (Reserva.fecha_inicio reserva)).
  set (he := Fecha.getHours tz (Reserva.fecha_fin reserva)).
  set (me := Fecha.getMinutes tz (Reserva.fecha_fin reserva)).
  change (cercaEntre (60 * hs + ms, hora hs ms) (60 * he + me, hora he me)
          = true).
  apply (forallb_pares _ cercaEntre relojes relojes_cerca);
    apply relojes_In;
    first [apply getHours_rango | apply getMinutes_rango].
Qed.

(** C8.  With the display range 06:00-22:00 and 60 pixels per hour, the
    offset of a reservation is [(max(startHour, 6) - 6) * 60] and its height
    [(min(endHour, 22) - max(startHour, 6)) * 60], on the decimal hours of
    its local start and end, in the arithmetic of JavaScript numbers.  These
    two numbers are within 2^-40 of the integers given by one pixel per
    minute: [max(sm, 360) - 360] and [min(em, 1320) - max(sm, 360)] for a
    start [sm] and an end [em] minutes after midnight.  A reservation from
    09:00 to 10:30 gets offset 180 and height 90; one from 05:00 to 07:00 is
    clipped to offset 0 and height 60. *)
Theorem calculateReservaPosition_formula :
  forall (tz : Fecha.Zona) (reserva : Reserva.t),
    let inicio := Reserva.fecha_inicio reserva in
    let fin := Reserva.fecha_fin reserva in
    let startHour := horaDecimal tz inicio in
    let endHour := horaDecimal tz fin in
    let p := calculateReservaPosition tz reserva in
    top p = PrimFloat.mul
              (PrimFloat.sub (Numero.max startHour 6%float) 6%float) 60%float
    /\ height p
       = PrimFloat.mul
           (PrimFloat.sub (Numero.min endHour 22%float)
                          (Numero.max startHour 6%float)) 60%float
    /\ cerca (top p)
         (topExacto (60 * Fecha.getHours tz inicio + Fecha.getMinutes tz inicio))
       = true
    /\ cerca (height p)
         (heightExacto
            (60 * Fecha.getHours tz inicio + Fecha.getMinutes tz inicio)
            (60 * Fecha.getHours tz fin + Fecha.getMinutes tz fin))
       = true
    /\ (Fecha.getHours tz inicio = 9 -> Fecha.getMinutes tz inicio = 0 ->
        Fecha.getHours tz fin = 10 -> Fecha.getMinutes tz fin = 30 ->
        p = {| top := 180%float; height := 90%float |})
    /\ (Fecha.getHours tz inicio = 5 -> Fecha.getMinutes tz inicio = 0 ->
        Fecha.getHours tz fin = 7 -> Fecha.getMinutes tz fin = 0 ->
        p = {| top := 0%float; height := 60%float |}).
Proof.
  intros tz reserva inicio fin startHour endHour p.
  pose proof (calculateReservaPosition_exacta tz reserva) as E.
  unfold cercaPosicion in E. apply andb_true_iff in E. destruct E as [Et Eh].
  split; [reflexivity | split; [reflexivity |]].
  split; [exact Et | split; [exact Eh |]].
  subst p. rewrite calculateReservaPosition_horas. subst inicio fin.
  split; intros Hs Ms He Me; rewrite Hs, Ms, He, Me; vm_compute; reflexivity.
Qed.

(** The two readings of C8 on the clock of Madrid: Monday 2024-03-18 from
    09:00 to 10:30 and from 05:00 to 07:00 local time (UTC+1). *)
Example calculateReservaPosition_nueve_a_diez_y_media :
  calculateReservaPosition madrid
    (reservaDe 1 1 (medianoche18 + minutos 8 0) (medianoche18 + minutos 9 30))
  = {| top := 180%float; height := 90%float |}.
Proof. vm_compute. reflexivity. Qed.

Example calculateReservaPosition_cinco_a_siete :
  calculateReservaPosition madrid
    (reservaDe 1 1 (medianoche18 + minutos 4 0) (medianoche18 + minutos 6 0))
  = {| top := 0%float; height := 60%float |}.
Proof. vm_compute. reflexivity. Qed.

(** Rounding shows: a start at 10:10 is placed a hair above pixel 250. *)
Example calculateReservaPosition_diez_y_diez :
  top (calculateReservaPosition utc
         (reservaDe 1 1 (medianoche18 + minutos 10 10)
                        (medianoche18 + minutos 11 0)))
  = 0x1.f3fffffffffffp+7%float.
Proof. vm_compute. reflexivity. Qed.

(* ------------------------------------------------------------------------ *)
(** * Further properties *)

(** ** The availability query *)



(** On the night of a clock change the window can come out inverted: in
    Madrid on 2024-03-31, 02:30 does not exist and is read as 03:30, so the
    query from 02:30 to 03:00 runs from 01:30 UTC to 01:00 UTC. *)
Example handleBuscar_ventana_invertida :
  Fecha.deFechaHora madrid 19813 180 < Fecha.deFechaHora madrid 19813 150.
Proof. vm_compute. reflexivity. Qed.

(** X2.  With a minimum capacity, the answer lists exactly the rooms of the
    directory whose capacity is at least the minimum, once each and in the
    order of the directory, whatever the reservations are; a room below the
    minimum never appears.  Without a minimum it lists every room. *)
Theorem handleBuscar_capacidad :
  forall (tz : Fecha.Zona) (salones : list Salon.t)
         (reservas : list Reserva.t) (fecha horaInicio horaFin : option Z)
         (capacidadMinima : option Z) (res : list Resultado),
    handleBuscar tz salones reservas fecha horaInicio horaFin capacidadMinima
    = Some res ->
    map salon res
    = match capacidadMinima with
      | Some minimo => filter (fun s => minimo <=? Salon.capacidad s) salones
      | None => salones
      end
    /\ (forall minimo s,
          capacidadMinima = Some minimo -> Salon.capacidad s < minimo ->
          ~ In s (map salon res))
    /\ (forall reservas',
          exists res',
            handleBuscar tz salones reservas' fecha horaInicio horaFin
                         capacidadMinima = Some res'
            /\ map salon res' = map salon res).
Proof.
  intros tz salones reservas fecha horaInicio horaFin cap res H.
  destruct (handleBuscar_ventana _ _ _ _ _ _ _ _ H)
    as (f & hi & hf & -> & -> & -> & L & ->).
  rewrite verificarDisponibilidad_salones.
  assert (E : filtrarPorCapacidad salones cap
              = match cap with
                | Some minimo =>
                    filter (fun s => minimo <=? Salon.capacidad s) salones
                | None => salones
                end).
  { destruct cap as [m |]; [| reflexivity]. simpl.
    apply filter_ext. intros s. now rewrite Z.geb_leb. }
  split; [exact E | split].
  - intros minimo s -> Hc Hin. rewrite E in Hin.
    apply filter_In in Hin. destruct Hin as [_ Hin].
    apply Z.leb_le in Hin. lia.
  - intros reservas'. eexists. split.
    + simpl. destruct (Z.leb_spec hf hi); [lia | reflexivity].
    + now rewrite verificarDisponibilidad_salones.
Qed.

Lemma handleBuscar_capacidad_testigo :
  map salon
      [{| salon := sala 2 20; disponible := true; conflicto := None |};
       {| salon := sala 3 30; disponible := true; conflicto := None |}]
  = filter (fun s => 20 <=? Salon.capacidad s) tresSalas
  /\ (forall minimo s,
        Some 20 = Some minimo -> Salon.capacidad s < minimo ->
        ~ In s (map salon
                  [{| salon := sala 2 20; disponible := true;
                      conflicto := None |};
                   {| salon := sala 3 30; disponible := true;
                      conflicto := None |}]))
  /\ (forall reservas',
        exists res',
          handleBuscar utc tresSalas reservas' (Some lunes18) (Some 630)
                       (Some 690) (Some 20) = Some res'
          /\ map salon res'
             = map salon
                 [{| salon := sala 2 20; disponible := true;
                     conflicto := None |};
                  {| salon := sala 3 30; disponible := true;
                     conflicto := None |}]).
Proof.
  apply (handleBuscar_capacidad utc tresSalas [diezAOnce] (Some lunes18)
           (Some 630) (Some 690) (Some 20)).
  vm_compute. reflexivity.
Defined.

(** X3.  With an empty snapshot every candidate room is reported available
    with no conflict, and with no candidate room the answer is the empty
    list: in both cases an answer, not a refusal. *)
Theorem verificarDisponibilidad_vacios :
  forall (reservas : list Reserva.t) (a b : Z) (salones : list Salon.t),
    verificarDisponibilidad [] a b salones
    = map (fun s => {| salon := s; disponible := true; conflicto := None |})
          salones
    /\ verificarDisponibilidad reservas a b [] = []
    /\ (forall tz f hi hf cap,
          hi < hf ->
          exists res,
            handleBuscar tz salones [] (Some f) (Some hi) (Some hf) cap
            = Some res
            /\ forall x, In x res ->
                         disponible x = true /\ conflicto x = None).
Proof.
  intros reservas a b salones. split; [reflexivity | split; [reflexivity |]].
  intros tz f hi hf cap L. eexists. split.
  - simpl. destruct (Z.leb_spec hf hi); [lia | reflexivity].
  - intros x Hx. apply in_map_iff in Hx. destruct Hx as (s & <- & _).
    simpl. auto.
Qed.

Lemma porInicio_cola : forall l1 r l2,
  porInicio (l1 ++ r :: l2) ->
  forall x, In x l2 -> Reserva.fecha_inicio r <= Reserva.fecha_inicio x.
Proof.
  unfold porInicio. induction l1 as [| y l1 IH]; intros r l2 S x Hx; simpl in S.
  - apply StronglySorted_inv in S. destruct S as [_ F].
    rewrite Forall_forall in F. now apply F.
  - apply StronglySorted_inv in S. destruct S as [S _]. now apply (IH r l2).
Qed.

(** X4.  When the snapshot is ordered by start, as the backend returns it,
    the conflict reported for a room is the overlapping reservation of that
    room that starts first: no reservation of the room that overlaps the
    window starts before it. *)
Theorem verificarDisponibilidad_conflicto_mas_temprano :
  forall (reservas : list Reserva.t) (a b : Z) (salones : list Salon.t)
         (res : Resultado) (r : Reserva.t),
    porInicio reservas ->
    In res (verificarDisponibilidad reservas a b salones) ->
    conflicto res = Some r ->
    forall r', In r' reservas ->
               solapaSemiabierto (Salon.id (salon res)) a b r' ->
               Reserva.fecha_inicio r <= Reserva.fecha_inicio r'.
Proof.
  intros reservas a b salones res r S Hres C r' Hr' O.
  apply (verificarDisponibilidad_primero _ _ _ _ _ _ Hres) in C.
  destruct C as (l1 & l2 & -> & Pr & N).
  apply in_app_or in Hr'. destruct Hr' as [Hr' | [<- | Hr']].
  - apply solapa_spec in O. rewrite (N r' Hr') in O. discriminate.
  - lia.
  - now apply (porInicio_cola l1 r l2).
Qed.

Lemma verificarDisponibilidad_conflicto_mas_temprano_testigo :
  Reserva.fecha_inicio diezAOnce <= Reserva.fecha_inicio onceADoce.
Proof.
  apply (verificarDisponibilidad_conflicto_mas_temprano
           [diezAOnce; enSala2; onceADoce]
           (medianoche18 + minutos 10 30) (medianoche18 + minutos 11 30)
           tresSalas
           {| salon := sala 1 10; disponible := false;
              conflicto := Some diezAOnce |} diezAOnce).
  - unfold porInicio.
    repeat (constructor; [| repeat constructor; vm_compute; discriminate]).
    constructor.
  - vm_compute. left. reflexivity.
  - reflexivity.
  - right. right. left. reflexivity.
  - vm_compute. repeat split; reflexivity.
Defined.

Lemma find_delSalon : forall s a b reservas,
  find (solapa s a b) (delSalon (Salon.id s) reservas)
  = find (solapa s a b) reservas.
Proof.
  intros s a b reservas. unfold delSalon.
  induction reservas as [| r l IH]; [reflexivity |]. simpl.
  destruct (Z.eqb_spec (Reserva.salon_id r) (Salon.id s)) as [E | E].
  - simpl. now rewrite IH.
  - rewrite IH. unfold solapa at 2.
    destruct (Z.eqb_spec (Reserva.salon_id r) (Salon.id s)); [contradiction |].
    reflexivity.
Qed.

(** X5.  The verdict on a room depends on the reservations of that room
    only: reservations of other rooms, wherever they stand in the snapshot,
    change neither its availability nor the conflict reported. *)
Theorem verificarDisponibilidad_por_salon :
  forall (reservas reservas' : list Reserva.t) (a b : Z) (s : Salon.t),
    delSalon (Salon.id s) reservas = delSalon (Salon.id s) reservas' ->
    verificarDisponibilidad reservas a b [s]
    = verificarDisponibilidad reservas' a b [s].
Proof.
  intros reservas reservas' a b s H. unfold verificarDisponibilidad. simpl.
  rewrite <- (find_delSalon s a b reservas).
  rewrite <- (find_delSalon s a b reservas'). now rewrite H.
Qed.

Lemma verificarDisponibilidad_por_salon_testigo :
  verificarDisponibilidad [diezAOnce; enSala2; onceADoce]
    (medianoche18 + minutos 10 30) (medianoche18 + minutos 11 30) [sala 1 10]
  = verificarDisponibilidad [diezAOnce; onceADoce]
      (medianoche18 + minutos 10 30) (medianoche18 + minutos 11 30)
      [sala 1 10].
Proof.
  apply (verificarDisponibilidad_por_salon [diezAOnce; enSala2; onceADoce]
           [diezAOnce; onceADoce]).
  reflexivity.
Defined.

(** ** The booking form, beyond the series of four weeks *)

Lemma insert_servida : forall filas db,
  Supabase.falla db (Supabase.turno db) = false ->
  Supabase.insert filas db
  = ({| Supabase.data := None; Supabase.error := None |},
     trasLlamadas [Supabase.Insert filas]
       (Supabase.almacenar (Supabase.siguienteId (Supabase.tabla db)) filas)
       db).
Proof.
  intros filas db H. unfold Supabase.insert. now rewrite H.
Qed.

Lemma insert_fallida : forall filas db,
  Supabase.falla db (Supabase.turno db) = true ->
  Supabase.insert filas db
  = ({| Supabase.data := None; Supabase.error := Some Supabase.noDisponible |},
     trasLlamadas [Supabase.Insert filas] [] db).
Proof.
  intros filas db H. unfold Supabase.insert. rewrite H.
  now rewrite trasLlamadas_solo_registro.
Qed.

(** The one-off path, whole: one insert, served or not. *)
Lemma handleSubmit_simple_resultado : forall tz salon_ user_id_ form db,
  esRecurrente form = false -> fechaInicio form < fechaFin form ->
  let f := nuevaReserva salon_ user_id_ (fechaInicio form) (fechaFin form)
             (proposito form) in
  handleSubmit tz salon_ user_id_ form db
  = if Supabase.falla db (Supabase.turno db)
    then (vistaError (ErrorSupabase Supabase.noDisponible),
          trasLlamadas [Supabase.Insert [f]] [] db)
    else (vistaExito None,
          trasLlamadas [Supabase.Insert [f]]
            (Supabase.almacenar (Supabase.siguienteId (Supabase.tabla db)) [f])
            db).
Proof.
  intros tz salon_ user_id_ form db R L f. unfold handleSubmit. rewrite R.
  destruct (Z.leb_spec (fechaFin form) (fechaInicio form)); [lia |].
  unfold crearReservaSimple, bind, await.
  destruct (Supabase.falla db (Supabase.turno db)) eqn:F.
  - now rewrite (insert_fallida _ _ F).
  - now rewrite (insert_servida _ _ F).
Qed.

(** X6.  A one-off booking that passes the validation is sent without any
    conflict probe: the only request is the insert of the submitted window.
    When the backend serves it the row is stored, whatever the table already
    holds for that room and those hours; when it answers with an error the
    error is shown and nothing is stored.  A table in which every
    reservation ends after it starts stays so. *)
Theorem handleSubmit_una_vez :
  forall (tz : Fecha.Zona) (salon_ : Salon.t) (user_id_ : Z)
         (form : Formulario) (db : Supabase.t),
    esRecurrente form = false ->
    fechaInicio form < fechaFin form ->
    let f := nuevaReserva salon_ user_id_ (fechaInicio form) (fechaFin form)
               (proposito form) in
    let final := handleSubmit tz salon_ user_id_ form db in
    Supabase.registro (snd final)
    = Supabase.registro db ++ [Supabase.Insert [f]]
    /\ (Supabase.falla db (Supabase.turno db) = false ->
        fst final = vistaExito None
        /\ Supabase.tabla (snd final)
           = Supabase.tabla db
               ++ Supabase.almacenar (Supabase.siguienteId (Supabase.tabla db))
                                     [f])
    /\ (Supabase.falla db (Supabase.turno db) = true ->
        fst final = vistaError (ErrorSupabase Supabase.noDisponible)
        /\ Supabase.tabla (snd final) = Supabase.tabla db)
    /\ (finPosterior (Supabase.tabla db) ->
        finPosterior (Supabase.tabla (snd final))).
Proof.
  intros tz salon_ user_id_ form db R L f final.
  destruct (handleSubmit_simple tz salon_ user_id_ form db R L) as [Hr Hi].
  split; [exact Hr | split; [| split; [| exact Hi]]];
    intros F; subst final;
    rewrite (handleSubmit_simple_resultado tz salon_ user_id_ form db R L);
    cbv zeta; rewrite F; simpl.
  - auto.
  - split; [reflexivity | apply app_nil_r].
Qed.

Lemma handleSubmit_una_vez_testigo :
  let form := unaVez (medianoche18 + minutos 10 0)
                     (medianoche18 + minutos 11 0) in
  let db := respaldo [diezAOnce] atiende in
  let f := nuevaReserva (sala 1 20) 7 (fechaInicio form) (fechaFin form)
             (proposito form) in
  let final := handleSubmit utc (sala 1 20) 7 form db in
  Supabase.registro (snd final)
  = Supabase.registro db ++ [Supabase.Insert [f]]
  /\ (Supabase.falla db (Supabase.turno db) = false ->
      fst final = vistaExito None
      /\ Supabase.tabla (snd final)
         = Supabase.tabla db
             ++ Supabase.almacenar (Supabase.siguienteId (Supabase.tabla db))
                                   [f])
  /\ (Supabase.falla db (Supabase.turno db) = true ->
      fst final = vistaError (ErrorSupabase Supabase.noDisponible)
      /\ Supabase.tabla (snd final) = Supabase.tabla db)
  /\ (finPosterior (Supabase.tabla db) ->
      finPosterior (Supabase.tabla (snd final))).
Proof.
  apply (handleSubmit_una_vez utc (sala 1 20) 7
           (unaVez (medianoche18 + minutos 10 0)
                   (medianoche18 + minutos 11 0))
           (respaldo [diezAOnce] atiende)); reflexivity.
Defined.

(** X9.  A series "until a date" whose stop date was left empty generates
    no occurrence and sends no probe: the only request is an insert of an
    empty batch, and when the backend serves it the form reports success,
    announcing 0 reservations. *)
Theorem handleSubmit_limite_vacio :
  forall (tz : Fecha.Zona) (salon_ : Salon.t) (user_id_ : Z)
         (form : Formulario) (db : Supabase.t),
    esRecurrente form = true ->
    tipoRecurrencia form = date ->
    fechaFinRecurrencia form = None ->
    fechaInicio form < fechaFin form ->
    let final := handleSubmit tz salon_ user_id_ form db in
    Supabase.registro (snd final)
    = Supabase.registro db ++ [Supabase.Insert []]
    /\ Supabase.tabla (snd final) = Supabase.tabla db
    /\ (Supabase.falla db (Supabase.turno db) = false ->
        fst final = vistaExito (Some 0)).
Proof.
  intros tz salon_ user_id_ form db R T F L final. subst final.
  rewrite (handleSubmit_recurrente tz salon_ user_id_ form db R L).
  assert (G : generadas tz form (fechaInicio form) (vueltas form) 0 = []).
  { unfold vueltas, numReservas. now rewrite T, F. }
  rewrite crearReservasRecurrentes_inserta by (rewrite G; reflexivity).
  rewrite G. cbv zeta. cbn [map]. rewrite trasLlamadas_nada.
  destruct (Supabase.falla db (Supabase.turno db)) eqn:Fa.
  - rewrite (insert_fallida _ _ Fa). simpl.
    split; [reflexivity | split; [apply app_nil_r | discriminate]].
  - rewrite (insert_servida _ _ Fa). simpl.
    split; [reflexivity | split; [apply app_nil_r | reflexivity]].
Qed.

Lemma handleSubmit_limite_vacio_testigo :
  let form :=
    {| fechaInicio := lunes11_10h; fechaFin := lunes11_11h;
       proposito := "Clase"; esRecurrente := true; tipoRecurrencia := date;
       numSemanas := 16; fechaFinRecurrencia := None |} in
  let db := respaldo [diezAOnce] atiende in
  let final := handleSubmit madrid (sala 1 20) 7 form db in
  Supabase.registro (snd final) = Supabase.registro db ++ [Supabase.Insert []]
  /\ Supabase.tabla (snd final) = Supabase.tabla db
  /\ (Supabase.falla db (Supabase.turno db) = false ->
      fst final = vistaExito (Some 0)).
Proof.
  apply (handleSubmit_limite_vacio madrid (sala 1 20) 7
           {| fechaInicio := lunes11_10h; fechaFin := lunes11_11h;
              proposito := "Clase"; esRecurrente := true;
              tipoRecurrencia := date; numSemanas := 16;
              fechaFinRecurrencia := None |}
           (respaldo [diezAOnce] atiende)); reflexivity.
Defined.

Lemma handleSubmit_fin_no_posterior_aux : forall tz salon_ user_id_ form db,
  fechaFin form <= fechaInicio form ->
  (error (fst (handleSubmit tz salon_ user_id_ form db)) <> None ->
   onSuccess (fst (handleSubmit tz salon_ user_id_ form db)) = false
   /\ Supabase.tabla (snd (handleSubmit tz salon_ user_id_ form db))
      = Supabase.tabla db)
  /\ error (fst (handleSubmit tz salon_ user_id_ form db)) <> None.
Proof.
  intros tz salon_ user_id_ form db V. unfold handleSubmit.
  destruct (Z.leb_spec (fechaFin form) (fechaInicio form)); [| lia].
  simpl. split; [auto | discriminate].
Qed.

(** X10.  Whatever is submitted, the table changes only when the form
    reports success.  If an error is shown, [onSuccess] is not called and
    the table is the one before the submission.  If none is shown,
    [onSuccess] is called, the requests sent were probes followed by one
    insert, and the table is the one before followed by the rows of that
    insert: a series is stored whole or not at all. *)
Theorem handleSubmit_tabla :
  forall (tz : Fecha.Zona) (salon_ : Salon.t) (user_id_ : Z)
         (form : Formulario) (db : Supabase.t),
    let final := handleSubmit tz salon_ user_id_ form db in
    (error (fst final) <> None ->
       onSuccess (fst final) = false
       /\ Supabase.tabla (snd final) = Supabase.tabla db)
    /\ (error (fst final) = None ->
        onSuccess (fst final) = true
        /\ exists sondas filas,
             Supabase.registro (snd final)
             = Supabase.registro db ++ sondas ++ [Supabase.Insert filas]
             /\ (forall c, In c sondas -> exists s x y, c = Supabase.Select s x y)
             /\ Supabase.tabla (snd final)
                = Supabase.tabla db
                    ++ Supabase.almacenar
                         (Supabase.siguienteId (Supabase.tabla db)) filas).
Proof.
  intros tz salon_ user_id_ form db final. subst final.
  destruct (Z.leb_spec (fechaFin form) (fechaInicio form)) as [V | V].
  { destruct (handleSubmit_fin_no_posterior_aux tz salon_ user_id_ form db V)
      as [A B].
    split; [exact A | intros E; now rewrite E in B]. }
  destruct (esRecurrente form) eqn:R.
  - rewrite (handleSubmit_recurrente tz salon_ user_id_ form db R V).
    destruct (filter (conflictiva tz salon_ (fechaInicio form) (fechaFin form)
                        db 0)
                     (generadas tz form (fechaInicio form) (vueltas form) 0))
      as [| c cs] eqn:C.
    + rewrite (crearReservasRecurrentes_inserta _ _ _ _ _ _ _ C). cbv zeta.
      set (g := generadas tz form (fechaInicio form) (vueltas form) 0).
      set (db1 := trasLlamadas _ [] db).
      destruct (Supabase.falla db1 (Supabase.turno db1)) eqn:Fa.
      * rewrite (insert_fallida _ _ Fa). simpl.
        split; [| discriminate]. intros _. split; [reflexivity |].
        now rewrite !app_nil_r.
      * rewrite (insert_servida _ _ Fa). simpl.
        split; [intros H; now destruct H |]. intros _.
        split; [reflexivity |].
        exists (map (consulta tz salon_ (fechaInicio form) (fechaFin form)) g),
               (map (fila tz salon_ user_id_ form (fechaInicio form)
                          (fechaFin form)) g).
        rewrite !app_nil_r. split; [now rewrite <- app_assoc | split].
        -- intros x Hx. apply in_map_iff in Hx. destruct Hx as (i & <- & _).
           unfold consulta. eauto.
        -- reflexivity.
    + rewrite crearReservasRecurrentes_aborta by (rewrite C; discriminate).
      simpl. split; [| discriminate]. intros _. split; [reflexivity |].
      apply app_nil_r.
  - rewrite (handleSubmit_simple_resultado tz salon_ user_id_ form db R V).
    cbv zeta. destruct (Supabase.falla db (Supabase.turno db)); simpl.
    + split; [| discriminate]. intros _. split; [reflexivity |].
      apply app_nil_r.
    + split; [intros H; now destruct H |]. intros _. split; [reflexivity |].
      exists [], [nuevaReserva salon_ user_id_ (fechaInicio form)
                    (fechaFin form) (proposito form)].
      split; [reflexivity | split; [intros c [] | reflexivity]].
Qed.

Lemma desde_cons : forall i k, desde i (S k) = i :: desde (i + 1) k.
Proof.
  intros i k. unfold desde. simpl. rewrite Z.add_0_r. f_equal.
  rewrite <- seq_shift, map_map. apply map_ext. intros j. lia.
Qed.

Lemma desde_In : forall i k j,
  In j (desde i k) <-> i <= j < i + Z.of_nat k.
Proof.
  intros i k j. unfold desde. rewrite in_map_iff. split.
  - intros (x & <- & Hx). apply in_seq in Hx. lia.
  - intros H. exists (Z.to_nat (j - i)). split; [lia |]. apply in_seq. lia.
Qed.

Lemma generadas_sin_limite : forall tz form a k i,
  tipoRecurrencia form = weeks ->
  generadas tz form a k i = desde i k.
Proof.
  intros tz form a k i T.
  assert (P : forall x, pasaLimite form x = false).
  { intros x. unfold pasaLimite, fechaLimite. now rewrite T. }
  revert i. induction k as [| k IH]; intros i; [reflexivity |].
  simpl. now rewrite P, IH, desde_cons.
Qed.




(** ** A series bounded by a stop date *)

Lemma techo_div : forall x d, 0 < d -> x / d <= - ((- x) / d).
Proof.
  intros x d H.
  pose proof (Z.div_mod x d) as A. pose proof (Z.mod_pos_bound x d H) as B.
  pose proof (Z.div_mod (- x) d) as A'.
  pose proof (Z.mod_pos_bound (- x) d H) as B'. nia.
Qed.

(** The count computed from the stop date covers every week that starts on
    or before it. *)
Lemma numReservas_alcanza : forall x,
  0 <= x ->
  x / semanaMs < - ((- x) / (1000 * 60 * 60 * 24)) / 7 + 1.
Proof.
  intros x H. unfold semanaMs, Fecha.msPerDay.
  change (1000 * 60 * 60 * 24) with 86400000.
  replace (7 * 86400000) with (86400000 * 7) by reflexivity.
  rewrite <- Z.div_div by lia.
  pose proof (techo_div x 86400000 ltac:(lia)) as T.
  pose proof (Z.div_le_mono _ _ 7 ltac:(lia) T). lia.
Qed.

Lemma generadas_hasta : forall tz form a limite k i,
  fechaLimite form = Some limite ->
  (forall j, i <= j < i + Z.of_nat k ->
             desplazar tz a j = a + j * semanaMs) ->
  generadas tz form a k i
  = desde i (Nat.min k (Z.to_nat ((limite - a) / semanaMs + 1 - i))).
Proof.
  intros tz form a limite k. induction k as [| k IH]; intros i F E.
  - reflexivity.
  - cbn [generadas]. unfold pasaLimite. rewrite F.
    rewrite (E i) by lia.
    assert (W : 0 < semanaMs) by (unfold semanaMs, Fecha.msPerDay; lia).
    destruct (Z.gtb_spec (a + i * semanaMs) limite) as [G | G].
    + assert (M : (limite - a) / semanaMs < i).
      { apply Z.div_lt_upper_bound; lia. }
      replace (Z.to_nat ((limite - a) / semanaMs + 1 - i)) with O by lia.
      now rewrite Nat.min_0_r.
    + assert (M : i <= (limite - a) / semanaMs).
      { apply Z.div_le_lower_bound; lia. }
      rewrite IH by (auto; intros j Hj; apply E; lia).
      replace (Z.to_nat ((limite - a) / semanaMs + 1 - i))
        with (S (Z.to_nat ((limite - a) / semanaMs + 1 - (i + 1)))) by lia.
      rewrite <- Nat.succ_min_distr. now rewrite desde_cons.
Qed.

(** X8.  A series "until a date" whose stop date is not before the start of
    the base window, when no clock change falls inside it: the occurrences
    generated are exactly the weeks [i >= 0] whose start, [i] times seven
    days after the base start, is not after the stop date.  Each is probed
    once, in order, and the only request that can follow the probes is the
    insert of them all. *)
Theorem handleSubmit_hasta_fecha :
  forall (tz : Fecha.Zona) (salon_ : Salon.t) (user_id_ : Z)
         (form : Formulario) (db : Supabase.t) (limite n : Z),
    esRecurrente form = true ->
    tipoRecurrencia form = date ->
    fechaFinRecurrencia form = Some limite ->
    fechaInicio form < fechaFin form ->
    fechaInicio form <= limite ->
    numReservas form = Some n ->
    desfaseEstable tz (fechaInicio form) n ->
    let g := generadas tz form (fechaInicio form) (vueltas form) 0 in
    g = desde 0 (Z.to_nat ((limite - fechaInicio form) / semanaMs + 1))
    /\ (forall i, In i g
                  <-> 0 <= i /\ fechaInicio form + i * semanaMs <= limite)
    /\ exists resto,
         Supabase.registro (snd (handleSubmit tz salon_ user_id_ form db))
         = Supabase.registro db
             ++ map (consulta tz salon_ (fechaInicio form) (fechaFin form)) g
             ++ resto
         /\ (resto = []
             \/ resto
                = [Supabase.Insert
                     (map (fila tz salon_ user_id_ form (fechaInicio form)
                                (fechaFin form)) g)]).
Proof.
  intros tz salon_ user_id_ form db limite n R T F L D N E g.
  assert (W : 0 < semanaMs) by (unfold semanaMs, Fecha.msPerDay; lia).
  assert (Nv : n = - ((- (limite - fechaInicio form)) / (1000 * 60 * 60 * 24))
                   / 7 + 1).
  { unfold numReservas in N. rewrite T, F in N.
    rewrite Z.abs_eq in N by lia. now injection N as <-. }
  pose proof (numReservas_alcanza (limite - fechaInicio form) ltac:(lia)) as A.
  rewrite <- Nv in A.
  pose proof (Z.div_pos (limite - fechaInicio form) semanaMs ltac:(lia) W) as P.
  assert (G : g = desde 0 (Z.to_nat ((limite - fechaInicio form) / semanaMs
                                     + 1))).
  { subst g. unfold vueltas. rewrite N.
    rewrite (generadas_hasta tz form (fechaInicio form) limite).
    - rewrite Z.sub_0_r. f_equal. lia.
    - unfold fechaLimite. now rewrite T.
    - intros j Hj. rewrite (desplazar_estable tz _ n j E) by lia.
      unfold semanaMs. lia. }
  split; [exact G | split].
  - intros i. rewrite G, desde_In. split.
    + intros H. split; [lia |].
      assert (M : i <= (limite - fechaInicio form) / semanaMs) by lia.
      pose proof (Z.mul_div_le (limite - fechaInicio form) semanaMs W). nia.
    + intros [H0 H1].
      assert (M : i <= (limite - fechaInicio form) / semanaMs).
      { apply Z.div_le_lower_bound; lia. }
      lia.
  - rewrite (handleSubmit_recurrente tz salon_ user_id_ form db R L).
    fold g.
    destruct (filter (conflictiva tz salon_ (fechaInicio form) (fechaFin form)
                        db 0) g) as [| c cs] eqn:C.
    + subst g. rewrite (crearReservasRecurrentes_inserta _ _ _ _ _ _ _ C).
      cbv zeta. eexists. split; [| right; reflexivity].
      unfold Supabase.insert.
      destruct (Supabase.falla _ _); simpl;
        now rewrite ?app_nil_r, <- app_assoc.
    + subst g.
      rewrite crearReservasRecurrentes_aborta by (rewrite C; discriminate).
      exists []. split; [| left; reflexivity]. simpl.
      now rewrite !app_nil_r.
Qed.

Lemma handleSubmit_hasta_fecha_testigo :
  let tz := Fecha.zonaFija (-18000000) in
  let form := hastaFecha lunes11_10h lunes11_11h (19818 * Fecha.msPerDay) in
  let db := respaldo [diezAOnce] atiende in
  let g := generadas tz form (fechaInicio form) (vueltas form) 0 in
  g = desde 0 (Z.to_nat ((19818 * Fecha.msPerDay - fechaInicio form)
                         / semanaMs + 1))
  /\ (forall i, In i g
                <-> 0 <= i
                    /\ fechaInicio form + i * semanaMs
                       <= 19818 * Fecha.msPerDay)
  /\ exists resto,
       Supabase.registro (snd (handleSubmit tz (sala 2 20) 7 form db))
       = Supabase.registro db
           ++ map (consulta tz (sala 2 20) (fechaInicio form) (fechaFin form))
                  g
           ++ resto
       /\ (resto = []
           \/ resto
              = [Supabase.Insert
                   (map (fila tz (sala 2 20) 7 form (fechaInicio form)
                              (fechaFin form)) g)]).
Proof.
  apply (handleSubmit_hasta_fecha (Fecha.zonaFija (-18000000)) (sala 2 20) 7
           (hastaFecha lunes11_10h lunes11_11h (19818 * Fecha.msPerDay))
           (respaldo [diezAOnce] atiende) (19818 * Fecha.msPerDay) 4).
  - reflexivity.
  - reflexivity.
  - reflexivity.
  - reflexivity.
  - vm_compute. discriminate.
  - reflexivity.
  - apply zonaFija_estable.
Defined.

(** The four Mondays from 2024-03-11 to 2024-04-01 are generated for a stop
    date of 2024-04-05, and the Monday that would fall on the stop date
    itself is left out when the stop date is 2024-04-08: the stop date is
    the midnight (UTC) that begins that day. *)
Example generadas_hasta_el_lunes :
  generadas (Fecha.zonaFija (-18000000))
    (hastaFecha lunes11_10h lunes11_11h (19821 * Fecha.msPerDay))
    lunes11_10h
    (vueltas (hastaFecha lunes11_10h lunes11_11h (19821 * Fecha.msPerDay))) 0
  = [0; 1; 2; 3].
Proof. vm_compute. reflexivity. Qed.

(** ** The calendar view *)

Lemma setHours_fija : forall desfase t h m s ms,
  Fecha.setHours (Fecha.zonaFija desfase) t h m s ms
  = medianocheLocal desfase t + Fecha.MakeTime h m s ms.
Proof.
  intros desfase t h m s ms.
  unfold Fecha.setHours, Fecha.UTC, Fecha.LocalTime, Fecha.zonaFija,
    Fecha.MakeDate, medianocheLocal. lia.
Qed.

Lemma medianocheLocal_contiene : forall desfase t,
  medianocheLocal desfase t <= t < medianocheLocal desfase t + Fecha.msPerDay.
Proof.
  intros desfase t. unfold medianocheLocal, Fecha.Day.
  pose proof (Z.div_mod (t + desfase) Fecha.msPerDay) as D.
  pose proof (Z.mod_pos_bound (t + desfase) Fecha.msPerDay) as B.
  unfold Fecha.msPerDay in *. lia.
Qed.

Lemma medianocheLocal_mismo_dia : forall desfase t t',
  medianocheLocal desfase t <= t' < medianocheLocal desfase t + Fecha.msPerDay ->
  medianocheLocal desfase t' = medianocheLocal desfase t.
Proof.
  intros desfase t t' H. unfold medianocheLocal in *. f_equal. f_equal.
  unfold Fecha.Day in *. symmetry.
  apply (Z.div_unique_pos (t' + desfase) Fecha.msPerDay
           ((t + desfase) / Fecha.msPerDay)
           (t' + desfase - Fecha.msPerDay * ((t + desfase) / Fecha.msPerDay)));
    unfold Fecha.msPerDay in *; lia.
Qed.

Lemma getReservasForSalonOnDate_fija : forall desfase reservas salonId date r,
  In r (getReservasForSalonOnDate (Fecha.zonaFija desfase) reservas salonId
          date)
  <-> In r reservas
      /\ Reserva.salon_id r = salonId
      /\ Reserva.fecha_inicio r
         <= medianocheLocal desfase date + Fecha.msPerDay - 1
      /\ medianocheLocal desfase date <= Reserva.fecha_fin r.
Proof.
  intros desfase reservas salonId date r.
  unfold getReservasForSalonOnDate. rewrite filter_In, !setHours_fija.
  unfold Fecha.MakeTime, Fecha.msPerHour, Fecha.msPerMinute, Fecha.msPerDay.
  destruct (Z.eqb_spec (Reserva.salon_id r) salonId) as [E | E]; simpl.
  - rewrite andb_true_iff, Z.leb_le, Z.geb_le. intuition lia.
  - intuition (try discriminate; try contradiction).
Qed.

(** X11.  In a zone of constant offset, the reservations listed for a room
    on the selected date are those of the room that touch the local day of
    that date, both ends included: from its midnight to 23:59:59.999.  The
    list is the same for every instant of that day.  A reservation that ends
    exactly at the midnight that begins the day is listed on it; one that
    starts exactly at the midnight that ends the day is not. *)
Theorem getReservasForSalonOnDate_dia_local :
  forall (desfase : Z) (reservas : list Reserva.t) (salonId date : Z),
    let tz := Fecha.zonaFija desfase in
    let m := medianocheLocal desfase date in
    m <= date < m + Fecha.msPerDay
    /\ (forall r,
          In r (getReservasForSalonOnDate tz reservas salonId date)
          <-> In r reservas
              /\ Reserva.salon_id r = salonId
              /\ Reserva.fecha_inicio r <= m + Fecha.msPerDay - 1
              /\ m <= Reserva.fecha_fin r)
    /\ (forall date',
          m <= date' < m + Fecha.msPerDay ->
          getReservasForSalonOnDate tz reservas salonId date'
          = getReservasForSalonOnDate tz reservas salonId date)
    /\ (forall r,
          In r reservas -> Reserva.salon_id r = salonId ->
          Reserva.fecha_inicio r <= Reserva.fecha_fin r ->
          Reserva.fecha_fin r = m ->
          In r (getReservasForSalonOnDate tz reservas salonId date))
    /\ (forall r,
          Reserva.fecha_inicio r = m + Fecha.msPerDay ->
          ~ In r (getReservasForSalonOnDate tz reservas salonId date)).
Proof.
  intros desfase reservas salonId date tz m.
  split; [apply medianocheLocal_contiene |].
  split; [intros r; apply getReservasForSalonOnDate_fija |].
  split; [| split].
  - intros date' H. unfold getReservasForSalonOnDate. subst tz.
    rewrite !setHours_fija.
    now rewrite (medianocheLocal_mismo_dia desfase date date' H).
  - intros r I S V F. apply getReservasForSalonOnDate_fija.
    fold m. unfold Fecha.msPerDay. repeat split; try assumption; lia.
  - intros r F H. apply getReservasForSalonOnDate_fija in H. fold m in H.
    lia.
Qed.

Lemma changeDate_fija : forall desfase selectedDate days,
  changeDate (Fecha.zonaFija desfase) selectedDate days
  = selectedDate + days * Fecha.msPerDay.
Proof.
  intros desfase selectedDate days. unfold changeDate.
  rewrite setDate_getDate.
  unfold Fecha.UTC, Fecha.LocalTime, Fecha.zonaFija. lia.
Qed.

Lemma medianocheLocal_mas_dias : forall desfase t n,
  medianocheLocal desfase (t + n * Fecha.msPerDay)
  = medianocheLocal desfase t + n * Fecha.msPerDay.
Proof.
  intros desfase t n. unfold medianocheLocal, Fecha.Day.
  replace (t + n * Fecha.msPerDay + desfase)
    with (t + desfase + n * Fecha.msPerDay) by lia.
  rewrite Z.div_add by (unfold Fecha.msPerDay; lia). lia.
Qed.

(** X12.  In a zone of constant offset, [changeDate] moves the selected date
    by whole days: moving by [a] and then by [b] days is moving by [a + b],
    so "previous" after "next" comes back to the date one started from; and
    after a move of [n] days the calendar lists the reservations that touch
    the local day [n] days later. *)
Theorem changeDate_dias :
  forall (desfase : Z) (reservas : list Reserva.t)
         (salonId selectedDate : Z),
    let tz := Fecha.zonaFija desfase in
    (forall a b,
        changeDate tz (changeDate tz selectedDate a) b
        = changeDate tz selectedDate (a + b))
    /\ (forall n, changeDate tz (changeDate tz selectedDate n) (- n)
                  = selectedDate)
    /\ (forall n r,
          In r (getReservasForSalonOnDate tz reservas salonId
                  (changeDate tz selectedDate n))
          <-> In r reservas
              /\ Reserva.salon_id r = salonId
              /\ Reserva.fecha_inicio r
                 <= medianocheLocal desfase selectedDate
                    + (n + 1) * Fecha.msPerDay - 1
              /\ medianocheLocal desfase selectedDate + n * Fecha.msPerDay
                 <= Reserva.fecha_fin r).
Proof.
  intros desfase reservas salonId selectedDate tz. subst tz.
  split; [| split].
  - intros a b. rewrite !changeDate_fija. lia.
  - intros n. rewrite !changeDate_fija. lia.
  - intros n r. rewrite getReservasForSalonOnDate_fija, changeDate_fija,
      medianocheLocal_mas_dias.
    split; intros (A & B & C & D); repeat split; try assumption; lia.
Qed.

(** Across a clock change the way back can miss: in Madrid, from Saturday
    2024-03-30 at 02:30, "next" lands on Sunday at 03:30 (02:30 does not
    exist that night), and "previous" then gives Saturday at 03:30. *)
Example changeDate_ida_y_vuelta_madrid :
  changeDate madrid (changeDate madrid (19812 * Fecha.msPerDay + minutos 1 30) 1)
             (-1)
  = 19812 * Fecha.msPerDay + minutos 2 30.
Proof. vm_compute. reflexivity. Qed.

(** X13.  [formatDateDisplay] always renders the date it is given, and in a
    zone of constant offset it puts "Hoy" in front exactly when that date
    and the current instant fall on the same local day; in any zone it does
    so when they fall on the same local day. *)
Theorem formatDateDisplay_hoy :
  forall (tz : Fecha.Zona) (desfase now date : Z),
    snd (formatDateDisplay tz now date) = Fecha.toLocaleDateStringLargo tz date
    /\ (Fecha.Day (Fecha.LocalTime tz date) = Fecha.Day (Fecha.LocalTime tz now)
        -> fst (formatDateDisplay tz now date) = true)
    /\ (fst (formatDateDisplay (Fecha.zonaFija desfase) now date) = true
        <-> Fecha.Day (date + desfase) = Fecha.Day (now + desfase)).
Proof.
  intros tz desfase now date. split; [| split].
  - unfold formatDateDisplay. destruct (_ =? _); reflexivity.
  - intros H. unfold formatDateDisplay, Fecha.setHours. rewrite H.
    now rewrite Z.eqb_refl.
  - unfold formatDateDisplay. rewrite !setHours_fija.
    unfold medianocheLocal, Fecha.MakeTime, Fecha.msPerDay.
    destruct (Z.eqb_spec
                (Fecha.Day (date + desfase) * 86400000 - desfase
                 + (0 * Fecha.msPerHour + 0 * Fecha.msPerMinute + 0 * 1000 + 0))
                (Fecha.Day (now + desfase) * 86400000 - desfase
                 + (0 * Fecha.msPerHour + 0 * Fecha.msPerMinute + 0 * 1000 + 0)))
      as [E | E]; simpl; split; intros H; try reflexivity;
      try discriminate; lia.
Qed.

Lemma etiquetasDistintas_ok : etiquetasDistintas = true.
Proof. vm_compute. reflexivity. Qed.

(** X14.  The labels of the time column are unambiguous: two different hours
    of the day never get the same text.  Noon is "12:00 PM" and midnight
    "12:00 AM", and the column runs from "6:00 AM" to "10:00 PM" in 17
    labels. *)
Theorem formatHour_sin_ambiguedad :
  (forall h1 h2,
      0 <= h1 < 24 -> 0 <= h2 < 24 ->
      formatHour h1 = formatHour h2 -> h1 = h2)
  /\ formatHour 12 = "12:00 PM"%string
  /\ formatHour 0 = "12:00 AM"%string
  /\ List.length hours = 17%nat
  /\ hd_error (map formatHour hours) = Some "6:00 AM"%string
  /\ last (map formatHour hours) ""%string = "10:00 PM"%string.
Proof.
  split; [| repeat split; reflexivity].
  intros h1 h2 H1 H2 E.
  pose proof (forallb_pares _
                (fun a b => implb (String.eqb (formatHour a) (formatHour b))
                                  (a =? b))
                horasDelDia etiquetasDistintas_ok h1 h2
                (rango_In 24 h1 H1) (rango_In 24 h2 H2)) as P.
  cbv beta in P. rewrite E, String.eqb_refl in P. simpl in P.
  now apply Z.eqb_eq.
Qed.

Lemma has_spec : forall s x, Conjunto.has s x = true <-> In x s.
Proof.
  intros s x. unfold Conjunto.has. rewrite existsb_exists. split.
  - intros (y & I & E). apply Z.eqb_eq in E. now subst.
  - intros I. exists x. split; [assumption | apply Z.eqb_refl].
Qed.

Lemma toggleCollapse_In : forall s x y,
  In y (toggleCollapse s x)
  <-> (y = x /\ ~ In x s) \/ (y <> x /\ In y s).
Proof.
  intros s x y. unfold toggleCollapse.
  destruct (Conjunto.has s x) eqn:H.
  - apply has_spec in H. unfold Conjunto.delete. rewrite filter_In.
    rewrite negb_true_iff, Z.eqb_neq. split.
    + intros [I N]. right. auto.
    + intros [[-> N] | [N I]]; [contradiction | auto].
  - assert (N : ~ In x s).
    { intros I. apply has_spec in I. congruence. }
    unfold Conjunto.add. rewrite H, in_app_iff. simpl. split.
    + intros [I | [<- | []]].
      * right. split; [| assumption]. intros ->. contradiction.
      * left. auto.
    + intros [[-> _] | [_ I]]; auto.
Qed.

(** X15.  [toggleCollapse] flips the row of one room and leaves the others
    as they are: the room is collapsed afterwards exactly when it was not
    before, every other room keeps its state, toggling twice restores the
    state of every room, and no room is ever recorded twice.  Accordingly
    the row of a room shows its blocks, one per reservation of the day,
    exactly when the room is not collapsed, and toggling another room does
    not change them. *)
Theorem toggleCollapse_fila :
  forall (tz : Fecha.Zona) (reservas : list Reserva.t)
         (collapsedSalones : list Z) (selectedDate salonId : Z)
         (salon_ : Salon.t),
    (Conjunto.has (toggleCollapse collapsedSalones salonId) salonId
     = negb (Conjunto.has collapsedSalones salonId))
    /\ (forall y, y <> salonId ->
                  Conjunto.has (toggleCollapse collapsedSalones salonId) y
                  = Conjunto.has collapsedSalones y)
    /\ (forall y,
          Conjunto.has (toggleCollapse
                          (toggleCollapse collapsedSalones salonId) salonId) y
          = Conjunto.has collapsedSalones y)
    /\ (NoDup collapsedSalones ->
        NoDup (toggleCollapse collapsedSalones salonId))
    /\ (bloquesDelSalon tz reservas collapsedSalones selectedDate salon_
        = if Conjunto.has collapsedSalones (Salon.id salon_) then None
          else Some (map (fun r => (r, calculateReservaPosition tz r))
                         (getReservasForSalonOnDate tz reservas
                            (Salon.id salon_) selectedDate)))
    /\ (Salon.id salon_ <> salonId ->
        bloquesDelSalon tz reservas (toggleCollapse collapsedSalones salonId)
                        selectedDate salon_
        = bloquesDelSalon tz reservas collapsedSalones selectedDate salon_).
Proof.
  intros tz reservas s selectedDate x salon_.
  assert (B : forall t y, Conjunto.has t y = true <-> In y t)
    by (intros; apply has_spec).
  assert (Eq : forall t u y, (In y t <-> In y u) ->
                             Conjunto.has t y = Conjunto.has u y).
  { intros t u y H. destruct (Conjunto.has t y) eqn:T;
      destruct (Conjunto.has u y) eqn:U; try reflexivity.
    - apply B in T. apply H in T. apply B in T. congruence.
    - apply B in U. apply H in U. apply B in U. congruence. }
  assert (L : forall y, y <> x ->
                        Conjunto.has (toggleCollapse s x) y
                        = Conjunto.has s y).
  { intros y N. apply Eq. rewrite toggleCollapse_In. intuition. }
  split; [| split; [exact L | split; [| split; [| split]]]].
  - destruct (Conjunto.has s x) eqn:H; simpl.
    + destruct (Conjunto.has (toggleCollapse s x) x) eqn:T; [| reflexivity].
      apply B in T. apply toggleCollapse_In in T. apply B in H.
      destruct T as [[_ N] | [N _]]; contradiction.
    + apply B. apply toggleCollapse_In. left. split; [reflexivity |].
      intros I. apply B in I. congruence.
  - intros y. apply Eq. rewrite !toggleCollapse_In.
    destruct (Z.eq_dec y x) as [-> | N]; intuition.
    destruct (in_dec Z.eq_dec x s); intuition.
  - intros N. unfold toggleCollapse.
    destruct (Conjunto.has s x) eqn:H.
    + unfold Conjunto.delete. now apply NoDup_filter.
    + unfold Conjunto.add. rewrite H. apply NoDup_app; [assumption | | ].
      * constructor; [intros [] | constructor].
      * intros y I [<- | []]. apply B in I. congruence.
  - reflexivity.
  - intros N. unfold bloquesDelSalon. now rewrite (L _ N).
Qed.

(** X16.  The row of a room draws a block for every reservation listed for
    the day, none left out, also when the reservation lies outside the hours
    shown.  For a reservation that ends by 06:00, or starts at 22:00 or
    later, or whose clock reading at the end is not after the one at the
    start (it runs past midnight), the exact height
    [min(em, 1320) - max(sm, 360)] is zero or negative, and the height drawn
    is within 2^-40 of it. *)
Theorem bloquesDelSalon_fuera_de_horas :
  forall (tz : Fecha.Zona) (reservas : list Reserva.t)
         (collapsedSalones : list Z) (selectedDate : Z) (salon_ : Salon.t)
         (bloques : list (Reserva.t * Posicion)),
    bloquesDelSalon tz reservas collapsedSalones selectedDate salon_
    = Some bloques ->
    map fst bloques
    = getReservasForSalonOnDate tz reservas (Salon.id salon_) selectedDate
    /\ (forall r p,
          In (r, p) bloques ->
          let sm := minutoDelDia tz (Reserva.fecha_inicio r) in
          let em := minutoDelDia tz (Reserva.fecha_fin r) in
          p = calculateReservaPosition tz r
          /\ cerca (height p) (heightExacto sm em) = true
          /\ (em <= 360 \/ 1320 <= sm \/ em <= sm -> heightExacto sm em <= 0)).
Proof.
  intros tz reservas s selectedDate salon_ bloques H.
  unfold bloquesDelSalon in H.
  destruct (Conjunto.has s (Salon.id salon_)); [discriminate |].
  injection H as <-. split.
  - rewrite map_map. simpl. apply map_id.
  - intros r p I sm em. apply in_map_iff in I.
    destruct I as (r' & [= <- <-] & _).
    split; [reflexivity | split].
    + pose proof (calculateReservaPosition_exacta tz r') as E.
      unfold cercaPosicion in E. apply andb_true_iff in E. apply E.
    + unfold heightExacto. lia.
Qed.

(** The reservation [nocturna] is listed on the Monday and drawn there at
    offset 960 with height -1020. *)
Lemma bloquesDelSalon_fuera_de_horas_testigo :
  map fst [(nocturna, {| top := 960%float; height := (-1020)%float |})]
  = getReservasForSalonOnDate utc [nocturna] (Salon.id (sala 1 20))
      (medianoche18 + minutos 9 0)
  /\ (forall r p,
        In (r, p) [(nocturna, {| top := 960%float; height := (-1020)%float |})]
        ->
        let sm := minutoDelDia utc (Reserva.fecha_inicio r) in
        let em := minutoDelDia utc (Reserva.fecha_fin r) in
        p = calculateReservaPosition utc r
        /\ cerca (height p) (heightExacto sm em) = true
        /\ (em <= 360 \/ 1320 <= sm \/ em <= sm -> heightExacto sm em <= 0)).
Proof.
  apply (bloquesDelSalon_fuera_de_horas utc [nocturna] []
           (medianoche18 + minutos 9 0) (sala 1 20)).
  vm_compute. reflexivity.
Defined.

(** ** Loading the snapshots *)

Lemma loadReservas_campos : forall b c s e,
  App.user (loadReservas b c s e) = App.user e
  /\ App.salones (loadReservas b c s e) = App.salones e.
Proof.
  intros b c s e. unfold loadReservas.
  destruct c as [r | m]; [destruct (Supabase.error r) |];
    try (destruct s as [rs | ms]; [destruct (Supabase.error rs) |]);
    destruct b; split; reflexivity.
Qed.

Lemma loadReservas_fallida : forall c s e,
  cargaFallida c s -> App.reservas (loadReservas true c s e) = [].
Proof.
  intros c s e F. unfold loadReservas, cargaFallida, conError in *.
  destruct c as [r | m]; [| reflexivity].
  destruct F as [Er Es].
  destruct (Supabase.error r); [| contradiction].
  destruct s as [rs | ms]; [| reflexivity].
  destruct (Supabase.error rs); [reflexivity | contradiction].
Qed.

(** X17.  [loadReservas] touches nothing but the list of reservations, and
    nothing at all when the component is unmounted.  Otherwise the list
    becomes what the joined query brought back if it resolved without
    error; if it resolved with an error, what the simpler query brought
    back if that one resolved without error; and the empty list in every
    other case.  So a failed load empties the list instead of keeping the
    previous snapshot, and a timeout of the first query is not followed by
    the second one: its outcome makes no difference. *)
Theorem loadReservas_resultado :
  forall (isMounted : bool) (carrera simple : Promesa (list Reserva.t))
         (e : App.t),
    let e' := loadReservas isMounted carrera simple e in
    App.user e' = App.user e
    /\ App.salones e' = App.salones e
    /\ (isMounted = false -> e' = e)
    /\ (isMounted = true ->
        (forall l, datosDe carrera = Some l -> App.reservas e' = l)
        /\ (forall r l,
              carrera = Cumplida r -> Supabase.error r <> None ->
              datosDe simple = Some l -> App.reservas e' = l)
        /\ (cargaFallida carrera simple -> App.reservas e' = []))
    /\ (forall m simple',
          carrera = Rechazada m ->
          loadReservas isMounted carrera simple' e = e').
Proof.
  intros isMounted carrera simple e e'. subst e'.
  pose proof (loadReservas_campos isMounted carrera simple e) as U.
  split; [apply U | split; [apply U |]].
  split; [| split].
  - intros ->. unfold loadReservas.
    destruct carrera as [r | m]; [destruct (Supabase.error r) |];
      try (destruct simple as [rs | ms]; [destruct (Supabase.error rs) |]);
      reflexivity.
  - intros ->. split; [| split].
    + intros l D. unfold loadReservas, datosDe in *.
      destruct carrera as [r | m]; [| discriminate].
      destruct (Supabase.error r); [discriminate |].
      now injection D as <-.
    + intros r l -> Er D. unfold loadReservas, datosDe in *.
      destruct (Supabase.error r); [| contradiction].
      destruct simple as [rs | ms]; [| discriminate].
      destruct (Supabase.error rs); [discriminate |].
      now injection D as <-.
    + apply loadReservas_fallida.
  - intros m simple' ->. reflexivity.
Qed.

Lemma handleBuscar_sin_reservas : forall tz salones f hi hf cap,
  hi < hf ->
  exists res,
    handleBuscar tz salones [] (Some f) (Some hi) (Some hf) cap = Some res
    /\ forall x, In x res -> disponible x = true /\ conflicto x = None.
Proof.
  intros tz salones f hi hf cap L. eexists. split.
  - simpl. destruct (Z.leb_spec hf hi); [lia | reflexivity].
  - intros x Hx. apply in_map_iff in Hx. destruct Hx as (s & <- & _).
    simpl. auto.
Qed.

(** X18.  Reservations are loaded only for a signed-in user.  For a visitor
    the effect leaves the list of reservations as it is, so from the state
    at mount it stays empty whatever the backend holds; for a signed-in user
    a failed load empties it.  In both cases the availability query reports
    every candidate room available, with no conflict, and every room card
    shows the room as free. *)
Theorem efectoCarga_sin_reservas :
  forall (cSalones : Promesa (list Salon.t))
         (cReservas cSimple : Promesa (list Reserva.t)) (e : App.t),
    let e' := efectoCarga cSalones cReservas cSimple e in
    App.user e' = App.user e
    /\ (App.user e = None -> App.reservas e' = App.reservas e)
    /\ ((App.user e = None /\ App.reservas e = [])
        \/ (App.user e <> None /\ cargaFallida cReservas cSimple) ->
        App.reservas e' = []
        /\ (forall tz f hi hf cap,
              hi < hf ->
              exists res,
                handleBuscar tz (App.salones e') (App.reservas e')
                             (Some f) (Some hi) (Some hf) cap = Some res
                /\ forall x, In x res ->
                             disponible x = true /\ conflicto x = None)
        /\ (forall now salonId,
              getSalonStatus (App.reservas e') now salonId
              = disponibleAhora)).
Proof.
  intros cSalones cReservas cSimple e e'.
  assert (S : App.user (loadSalones true cSalones e) = App.user e
              /\ App.reservas (loadSalones true cSalones e) = App.reservas e).
  { unfold loadSalones. destruct cSalones as [r | m];
      [destruct (Supabase.error r) |]; split; reflexivity. }
  destruct S as [Su Sr].
  assert (U : App.user e' = App.user e).
  { subst e'. unfold efectoCarga. cbv zeta. rewrite Su.
    destruct (App.user e); [| exact Su].
    destruct (loadReservas_campos true cReservas cSimple
                (loadSalones true cSalones e)) as [A _].
    now rewrite A. }
  assert (V : App.user e = None -> App.reservas e' = App.reservas e).
  { intros N. subst e'. unfold efectoCarga. cbv zeta. rewrite Su, N.
    exact Sr. }
  split; [exact U | split; [exact V |]].
  intros H.
  assert (R : App.reservas e' = []).
  { destruct H as [[N E] | [N F]].
    - rewrite (V N). exact E.
    - subst e'. unfold efectoCarga. cbv zeta. rewrite Su.
      destruct (App.user e); [| contradiction].
      now apply loadReservas_fallida. }
  split; [exact R | split].
  - intros tz f hi hf cap L. rewrite R.
    now apply handleBuscar_sin_reservas.
  - intros now salonId. rewrite R. reflexivity.
Qed.

(** At mount, for a visitor, with room 1 reserved in the backend. *)
Example efectoCarga_visitante :
  let e' := efectoCarga (conDatos tresSalas) (conDatos [diezAOnce]) conFallo
                        App.inicial in
  App.salones e' = tresSalas
  /\ App.reservas e' = []
  /\ handleBuscar utc (App.salones e') (App.reservas e')
       (Some lunes18) (Some 630) (Some 690) None
     = Some (map (fun s => {| salon := s; disponible := true;
                              conflicto := None |}) tresSalas).
Proof. vm_compute. repeat split; reflexivity. Qed.

(** ** How the views agree *)

(** X19.  The card and the calendar agree on the present: in a zone of
    constant offset, when the card of a room shows it occupied at [now],
    a reservation of that room that covers [now] is in the row of the room
    in the calendar of today. *)
Theorem getSalonStatus_en_calendario :
  forall (desfase : Z) (reservas : list Reserva.t) (now salonId : Z),
    getSalonStatus reservas now salonId = ocupado ->
    exists r,
      In r (getReservasForSalonOnDate (Fecha.zonaFija desfase) reservas
              salonId now)
      /\ Reserva.fecha_inicio r <= now <= Reserva.fecha_fin r.
Proof.
  intros desfase reservas now salonId H. unfold getSalonStatus in H.
  match type of H with
  | (if ?c then _ else _) = _ => destruct c eqn:C; [| discriminate]
  end.
  apply filter_no_vacio in C. destruct C as (r & I & P).
  apply andb_true_iff in P. destruct P as [P P3].
  apply andb_true_iff in P. destruct P as [P1 P2].
  apply Z.eqb_eq in P1. apply Z.leb_le in P2. apply Z.geb_le in P3.
  exists r. split; [| lia].
  apply getReservasForSalonOnDate_fija.
  pose proof (medianocheLocal_contiene desfase now). 
  repeat split; try assumption; lia.
Qed.

Lemma getSalonStatus_en_calendario_testigo :
  exists r,
    In r (getReservasForSalonOnDate (Fecha.zonaFija (-18000000))
            [diezAOnce; enSala2; onceADoce] 1 (medianoche18 + minutos 11 0))
    /\ Reserva.fecha_inicio r <= medianoche18 + minutos 11 0
       <= Reserva.fecha_fin r.
Proof.
  apply (getSalonStatus_en_calendario (-18000000)
           [diezAOnce; enSala2; onceADoce] (medianoche18 + minutos 11 0) 1).
  reflexivity.
Defined.

Lemma solapa_implica_filtro : forall s a b r,
  a < b ->
  solapa s a b r = true -> Supabase.filtro (Salon.id s) b a r = true.
Proof.
  intros s a b r L H. apply solapa_spec in H. apply filtro_spec.
  unfold solapaSemiabierto in H. unfold solapaCerrado. lia.
Qed.

(** X20.  What the availability query flags, a series refuses.  If the
    table holds a reservation that the availability test counts as a
    conflict with the base window on the room, and the first probe is
    served, a series of weeks submitted for that window (its two ends being
    read back unchanged by the local calendar) is refused with a conflict
    list that names week 1, and nothing is stored.  The two tests differ
    only on reservations that touch the window at one end: the probe flags
    those too. *)
Theorem handleSubmit_rechaza_lo_ocupado :
  forall (tz : Fecha.Zona) (salon_ : Salon.t) (user_id_ : Z)
         (form : Formulario) (db : Supabase.t) (r : Reserva.t),
    esRecurrente form = true ->
    tipoRecurrencia form = weeks ->
    0 < numSemanas form ->
    fechaInicio form < fechaFin form ->
    sinAmbiguedad tz (fechaInicio form) ->
    sinAmbiguedad tz (fechaFin form) ->
    Supabase.falla db (Supabase.turno db) = false ->
    In r (Supabase.tabla db) ->
    solapa salon_ (fechaInicio form) (fechaFin form) r = true ->
    (exists cs,
        fst (handleSubmit tz salon_ user_id_ form db)
        = vistaError (ErrorConflictos cs)
        /\ In 1 (map semana cs))
    /\ Supabase.tabla (snd (handleSubmit tz salon_ user_id_ form db))
       = Supabase.tabla db
    /\ (forall s a b x,
          a < b -> Reserva.fecha_inicio x < Reserva.fecha_fin x ->
          (Supabase.filtro (Salon.id s) b a x = true
           <-> solapa s a b x = true
               \/ (Reserva.salon_id x = Salon.id s
                   /\ (Reserva.fecha_fin x = a \/ Reserva.fecha_inicio x = b)))).
Proof.
  intros tz salon_ user_id_ form db r R T N L Sa Sb F I O.
  assert (G : exists k, generadas tz form (fechaInicio form) (vueltas form) 0
                        = 0 :: desde 1 k).
  { rewrite (generadas_sin_limite _ _ _ _ _ T).
    unfold vueltas, numReservas. rewrite T.
    destruct (Z.to_nat (numSemanas form)) as [| k] eqn:K; [lia |].
    exists k. now rewrite desde_cons. }
  destruct G as (k & G).
  assert (C0 : conflictiva tz salon_ (fechaInicio form) (fechaFin form) db 0 0
               = true).
  { unfold conflictiva, existentesDe. rewrite Z.sub_diag. simpl.
    rewrite Nat.add_0_r, F.
    rewrite (desplazar_cero tz _ Sa), (desplazar_cero tz _ Sb).
    unfold hayExistentes. apply filter_no_vacio. exists r.
    split; [assumption |]. now apply solapa_implica_filtro. }
  assert (C : filter (conflictiva tz salon_ (fechaInicio form) (fechaFin form)
                        db 0)
                     (generadas tz form (fechaInicio form) (vueltas form) 0)
              <> []).
  { rewrite G. simpl. rewrite C0. discriminate. }
  rewrite (handleSubmit_recurrente tz salon_ user_id_ form db R L).
  rewrite (crearReservasRecurrentes_aborta _ _ _ _ _ _ _ C).
  split; [| split].
  - eexists. split; [reflexivity |]. rewrite G. simpl. rewrite C0. simpl.
    now left.
  - simpl. apply app_nil_r.
  - intros s a b x Lab Lx. rewrite filtro_spec, solapa_spec.
    unfold solapaCerrado, solapaSemiabierto. lia.
Qed.

Lemma handleSubmit_rechaza_lo_ocupado_testigo :
  let form := semanal (medianoche18 + minutos 10 30)
                      (medianoche18 + minutos 11 30) 8 in
  let db := respaldo [diezAOnce] atiende in
  (exists cs,
      fst (handleSubmit madrid (sala 1 20) 7 form db)
      = vistaError (ErrorConflictos cs)
      /\ In 1 (map semana cs))
  /\ Supabase.tabla (snd (handleSubmit madrid (sala 1 20) 7 form db))
     = Supabase.tabla db
  /\ (forall s a b x,
        a < b -> Reserva.fecha_inicio x < Reserva.fecha_fin x ->
        (Supabase.filtro (Salon.id s) b a x = true
         <-> solapa s a b x = true
             \/ (Reserva.salon_id x = Salon.id s
                 /\ (Reserva.fecha_fin x = a \/ Reserva.fecha_inicio x = b)))).
Proof.
  apply (handleSubmit_rechaza_lo_ocupado madrid (sala 1 20) 7
           (semanal (medianoche18 + minutos 10 30)
                    (medianoche18 + minutos 11 30) 8)
           (respaldo [diezAOnce] atiende) diezAOnce); try reflexivity.
  left. reflexivity.
Defined.

Lemma find_solapa_mas_reservas : forall s a b l l',
  incl l l' -> find (solapa s a b) l <> None ->
  find (solapa s a b) l' <> None.
Proof.
  intros s a b l l' H F E. apply F. apply find_ninguno. intros x Hx.
  rewrite find_ninguno in E. apply E. now apply H.
Qed.

(** X21.  The verdict is monotone.  Reservations added to the snapshot
    never make an unavailable room available, and a room available for a
    window is available for every window inside it. *)
Theorem verificarDisponibilidad_monotona :
  forall (reservas reservas' : list Reserva.t) (a b a' b' : Z) (s : Salon.t),
    (incl reservas reservas' ->
     map disponible (verificarDisponibilidad reservas a b [s]) = [false] ->
     map disponible (verificarDisponibilidad reservas' a b [s]) = [false])
    /\ (a <= a' -> b' <= b ->
        map disponible (verificarDisponibilidad reservas a b [s]) = [true] ->
        map disponible (verificarDisponibilidad reservas a' b' [s]) = [true]).
Proof.
  intros reservas reservas' a b a' b' s.
  unfold verificarDisponibilidad. simpl. split.
  - intros H. destruct (find (solapa s a b) reservas) eqn:F; [| discriminate].
    intros _.
    assert (N : find (solapa s a b) reservas' <> None).
    { apply (find_solapa_mas_reservas s a b reservas reservas' H).
      rewrite F. discriminate. }
    destruct (find (solapa s a b) reservas'); [reflexivity | contradiction].
  - intros La Lb.
    destruct (find (solapa s a b) reservas) eqn:F; [discriminate |].
    intros _. rewrite find_ninguno in F.
    assert (N : find (solapa s a' b') reservas = None).
    { apply find_ninguno. intros x Hx. specialize (F x Hx).
      destruct (solapa s a' b' x) eqn:O; [| reflexivity].
      apply solapa_spec in O. unfold solapaSemiabierto in O.
      assert (T : solapa s a b x = true).
      { apply solapa_spec. unfold solapaSemiabierto. lia. }
      congruence. }
    now rewrite N.
Qed.
